(** * message.py: delivery units, their retry guard and the bot calls

    A shallow embedding of [src/message.py].  A delivery unit is one record of
    class [Message]; [send] is the source's guard / try / except tree run in a
    small state-and-exception monad over a [World] that holds the unit
    ([self]), the answers the bot will give to the calls still to come, the
    owner of [Message._lock] as the other flows left it, a heap of the
    [InputMedia] objects built for a media group, and the trace of what this
    flow did (log lines, lock operations, sleeps, bot calls). *)

From Stdlib Require Import ZArith.
From stdpp Require Import gmap strings list.

Local Open Scope Z_scope.

(** ** Data of the collaborators *)

(** [chat_id : Union[str, int]]. *)
Inductive ChatId : Type :=
| ChatStr (s : string)
| ChatInt (z : Z).

(** The classes of [telegram.error] the handlers of [send] tell apart.
    [BadRequest] and [TimedOut] are subclasses of [NetworkError];
    [RetryAfter] carries [retry_after]. *)
Inductive TelegramError : Type :=
| RetryAfter (message : string) (retry_after : Z)
| BadRequest (message : string)
| TimedOut (message : string)
| NetworkError (message : string)
| OtherTelegramError (message : string).

Definition message (e : TelegramError) : string :=
  match e with
  | RetryAfter m _ | BadRequest m | TimedOut m | NetworkError m
  | OtherTelegramError m => m
  end.

Definition is_RetryAfter (e : TelegramError) : bool :=
  match e with RetryAfter _ _ => true | _ => false end.

Definition is_BadRequest (e : TelegramError) : bool :=
  match e with BadRequest _ => true | _ => false end.

(** [isinstance(e, telegram.error.NetworkError)], subclasses included. *)
Definition is_NetworkError (e : TelegramError) : bool :=
  match e with
  | NetworkError _ | BadRequest _ | TimedOut _ => true
  | _ => false
  end.

Inductive Exception : Type :=
| AttributeError
| TypeError
| IndexError
| OverflowError
| ValueError
| RuntimeError
| Telegram (e : TelegramError).

(** One item of a media group as the transport takes it
    ([telegram.InputMedia*]): the medium, its caption and the parse mode. *)
Record InputMedia : Type := mkInputMedia {
  im_media : string;
  caption : option string;
  im_parse_mode : option string
}.

Definition set_caption (c : option string) (i : InputMedia) : InputMedia :=
  {| im_media := im_media i; caption := c; im_parse_mode := im_parse_mode i |}.

Definition set_parse_mode (p : option string) (i : InputMedia) : InputMedia :=
  {| im_media := im_media i; caption := caption i; im_parse_mode := p |}.

#[global] Instance InputMedia_inhabited : Inhabited InputMedia :=
  populate (mkInputMedia EmptyString None None).

(** The calls on [env.bot], with the arguments [_send] passes. *)
Inductive BotCall : Type :=
| send_message (chat_id : ChatId) (text : option string)
    (parse_mode : option string) (disable_web_page_preview : bool)
| send_photo (chat_id : ChatId) (photo : string) (caption : option string)
    (parse_mode : option string)
| send_video (chat_id : ChatId) (video : string) (caption : option string)
    (parse_mode : option string)
| send_animation (chat_id : ChatId) (animation : string)
    (caption : option string) (parse_mode : option string)
| send_media_group (chat_id : ChatId) (media : list InputMedia).

(** [fasteners.ReaderWriterLock.owner]: [None], [READER] or [WRITER]. *)
Inductive Owner : Type := READER | WRITER.

#[global] Instance Owner_eq_dec : EqDecision Owner.
Proof. solve_decision. Defined.

Inductive Event : Type :=
| Warning (msg : string)
| WarningExc (msg : string) (exc_info : Exception)
| ReadAcquire
| ReadRelease
| WriteAcquire
| WriteRelease
| Sleep (seconds : Z)
| Transport (c : BotCall).

Definition is_transport (ev : Event) : bool :=
  match ev with Transport _ => true | _ => false end.

(** Number of transport attempts recorded in a trace. *)
Definition attempts (tr : list Event) : nat :=
  length (filter (fun ev => is_transport ev = true) tr).

Inductive Res (A : Type) : Type :=
| Returned (a : A)
| Raised (e : Exception).
Arguments Returned {A} a.
Arguments Raised {A} e.

(** What the flow itself holds of [Message._lock], read off the lock
    operations of its trace: how many times it is a reader (the lock counts
    the read locks of a thread), and whether it is the writer. *)
Definition flow_step (h : nat * bool) (ev : Event) : nat * bool :=
  match ev with
  | ReadAcquire => (S (fst h), snd h)
  | ReadRelease => (pred (fst h), snd h)
  | WriteAcquire => (fst h, true)
  | WriteRelease => (fst h, false)
  | _ => h
  end.

Definition flow_holds (tr : list Event) : nat * bool :=
  foldl flow_step (0%nat, false) tr.

Definition is_reader (tr : list Event) : bool :=
  negb (Nat.eqb (fst (flow_holds tr)) 0).

Definition is_writer (tr : list Event) : bool := snd (flow_holds tr).

(** The longest sleep [time.sleep] takes: the seconds are converted to
    nanoseconds in a signed 64-bit integer. *)
Definition sleep_max : Z := 9223372036.

(** The classes of the file: [Message] and its five subclasses. *)
Inductive MsgClass : Type :=
| BaseMsg
| TextMsg
| PhotoMsg
| VideoMsg
| AnimationMsg
| MediaGroupMsg.

Section message.

(** [medium.py] is not part of the sources at hand: the type of media and
    what [get_url] answers are taken as given. *)
Context {Medium : Type}.
Variable get_url : Medium -> string.
Variable to_wire : Medium -> InputMedia.

(** [media : Optional[Union[List[Medium], Tuple[Medium], Medium]]]. *)
Inductive MediaArg : Type :=
| NoMedia
| OneMedium (m : Medium)
| Media (ms : list Medium).

(** The attributes of an instance.  [no_retry] is [None] while no attribute
    of that name is bound on the instance or its class. *)
Record Message : Type := mkMessage {
  cls : MsgClass;
  text : option string;
  media : MediaArg;
  parse_mode : option string;
  retries : nat;
  no_retry : option bool
}.

(** [Message.__init__]; an argument left out is [None] here and takes the
    default of the signature. *)
Definition __init__ (c : MsgClass) (text : option (option string))
    (media : option MediaArg) (parse_mode : option (option string)) : Message :=
  {| cls := c;
     text := default None text;
     media := default NoMedia media;
     parse_mode := default (Some "HTML"%string) parse_mode;
     retries := 0%nat;
     no_retry := None |}.

Record World : Type := mkWorld {
  self : Message;
  bot : list (option TelegramError);
  lock_owner : option Owner;
  heap : gmap positive InputMedia;
  trace : list Event
}.

(** ** The monad: state, exceptions, and fuel for the re-invocation *)

Definition Py (A : Type) : Type := World -> option (Res A * World).

Definition ret {A} (a : A) : Py A := fun w => Some (Returned a, w).

Definition raise {A} (e : Exception) : Py A := fun w => Some (Raised e, w).

Definition bind {A B} (m : Py A) (k : A -> Py B) : Py B :=
  fun w =>
    match m w with
    | None => None
    | Some (Returned a, w1) => k a w1
    | Some (Raised e, w1) => Some (Raised e, w1)
    end.

Notation "x <- m ;; k" := (bind m (fun x => k))
  (at level 100, m at next level, right associativity).
Notation "m ;;; k" := (bind m (fun _ => k))
  (at level 100, right associativity).

(** [try: m  except ... as e: h e]. *)
Definition try_except {A} (m : Py A) (h : Exception -> Py A) : Py A :=
  fun w =>
    match m w with
    | Some (Raised e, w1) => h e w1
    | r => r
    end.

(** [with ...: m], the exit [g] run on both ways out. *)
Definition finally {A} (m : Py A) (g : Py unit) : Py A :=
  fun w =>
    match m w with
    | None => None
    | Some (r, w1) =>
        match g w1 with
        | None => None
        | Some (Returned _, w2) => Some (r, w2)
        | Some (Raised e, w2) => Some (Raised e, w2)
        end
    end.

Definition get : Py World := fun w => Some (Returned w, w).

Definition emit (ev : Event) : Py unit :=
  fun w => Some (Returned tt,
    {| self := self w; bot := bot w; lock_owner := lock_owner w;
       heap := heap w; trace := trace w ++ [ev] |}).

Definition set_self (m : Message) : Py unit :=
  fun w => Some (Returned tt,
    {| self := m; bot := bot w; lock_owner := lock_owner w;
       heap := heap w; trace := trace w |}).

Definition set_heap (h : gmap positive InputMedia) : Py unit :=
  fun w => Some (Returned tt,
    {| self := self w; bot := bot w; lock_owner := lock_owner w;
       heap := h; trace := trace w |}).

(** [self.no_retry]. *)
Definition get_no_retry : Py bool :=
  w <- get ;;
  match no_retry (self w) with
  | Some b => ret b
  | None => raise AttributeError
  end.

(** [self.retries += 1]. *)
Definition incr_retries : Py unit :=
  w <- get ;;
  let m := self w in
  set_self {| cls := cls m; text := text m; media := media m;
              parse_mode := parse_mode m; retries := S (retries m);
              no_retry := no_retry m |}.

(** A call on [env.bot]: it is recorded, and the bot answers with the next
    entry of its script, [None] (or an exhausted script) for success. *)
Definition call_bot (c : BotCall) : Py unit :=
  emit (Transport c) ;;;
  fun w =>
    match bot w with
    | Some e :: rest =>
        Some (Raised (Telegram e),
              {| self := self w; bot := rest; lock_owner := lock_owner w;
                 heap := heap w; trace := trace w |})
    | None :: rest =>
        Some (Returned tt,
              {| self := self w; bot := rest; lock_owner := lock_owner w;
                 heap := heap w; trace := trace w |})
    | [] => Some (Returned tt, w)
    end.

(** [@fasteners.lock.read_locked]. *)
Definition read_locked {A} (m : Py A) : Py A :=
  emit ReadAcquire ;;; finally m (emit ReadRelease).

(** [with Message._lock.write_lock(): m].  The lock refuses a flow that is a
    reader ([RuntimeError]: no escalation from reader to writer); a flow that
    is the writer already goes on as it is; any other flow takes the lock,
    and leaves it on both ways out. *)
Definition write_lock {A} (m : Py A) : Py A :=
  w <- get ;;
  if is_writer (trace w) then m
  else if is_reader (trace w) then raise RuntimeError
  else (emit WriteAcquire ;;; finally m (emit WriteRelease)).

(** [time.sleep(secs)]: [OverflowError] for a length that does not convert,
    [ValueError] for a negative one. *)
Definition time_sleep (secs : Z) : Py unit :=
  if decide (sleep_max < Z.abs secs) then raise OverflowError
  else if decide (secs < 0) then raise ValueError
  else emit (Sleep secs).

(** [self.media.get_url()]. *)
Definition media_get_url : Py string :=
  w <- get ;;
  match media (self w) with
  | OneMedium m => ret (get_url m)
  | NoMedia | Media _ => raise AttributeError
  end.

(** Modelled from the spec: [Medium.telegramize] is absent from the sources;
    it is the "capability to convert to the transport's wire representation
    for a single group item", so each call builds one new item object, here
    at a fresh address of the heap, and answers its reference. *)
Definition telegramize (m : Medium) : Py positive :=
  w <- get ;;
  let l := fresh (dom (heap w)) in
  set_heap (<[l := to_wire m]> (heap w)) ;;;
  ret l.

(** [list(map(lambda m: m.telegramize(), ms))]. *)
Fixpoint map_telegramize (ms : list Medium) : Py (list positive) :=
  match ms with
  | [] => ret []
  | m :: ms' =>
      l <- telegramize m ;;
      ls <- map_telegramize ms' ;;
      ret (l :: ls)
  end.

(** [obj.attr = v] on the object a reference points to. *)
Definition setattr (l : positive) (f : InputMedia -> InputMedia) : Py unit :=
  w <- get ;; set_heap (alter f l (heap w)).

(** The body of [MediaGroupMsg._send]. *)
Definition media_group_send (chat_id : ChatId) : Py unit :=
  w <- get ;;
  media_list <-
    match media (self w) with
    | Media ms => map_telegramize ms
    | NoMedia | OneMedium _ => raise TypeError
    end ;;
  match media_list with
  | [] => raise IndexError
  | first :: _ =>
      setattr first (set_caption (text (self w))) ;;;
      setattr first (set_parse_mode (parse_mode (self w))) ;;;
      w' <- get ;;
      call_bot (send_media_group chat_id ((fun l => heap w' !!! l) <$> media_list))
  end.

(** [_send], by the class of the instance. *)
Definition _send (chat_id : ChatId) : Py unit :=
  w <- get ;;
  let m := self w in
  match cls m with
  | BaseMsg => ret tt
  | TextMsg =>
      read_locked (call_bot (send_message chat_id (text m) (parse_mode m) true))
  | PhotoMsg =>
      read_locked (u <- media_get_url ;;
                   call_bot (send_photo chat_id u (text m) (parse_mode m)))
  | VideoMsg =>
      read_locked (u <- media_get_url ;;
                   call_bot (send_video chat_id u (text m) (parse_mode m)))
  | AnimationMsg =>
      read_locked (u <- media_get_url ;;
                   call_bot (send_animation chat_id u (text m) (parse_mode m)))
  | MediaGroupMsg => read_locked (media_group_send chat_id)
  end.

Definition msg_dropped_no_retry : string :=
  "Message dropped: this message was configured not to retry.".
Definition msg_dropped_too_many : string :=
  "Message dropped: retried for too many times.".
Definition msg_bad_request : string :=
  "Something went wrong while sending a message. Please check:".
Definition msg_network (m : string) : string :=
  "Network error(" +:+ m +:+ "). Retrying...".

(** The except clauses of [send], tried in the order they are written;
    [again] is [self.send(chat_id)]. *)
Definition handler (again : Py unit) (exc : Exception) : Py unit :=
  match exc with
  | Telegram e =>
      if is_RetryAfter e then
        emit (Warning (message e)) ;;;
        incr_retries ;;;
        w <- get ;;
        (if decide (lock_owner w = Some WRITER) then ret tt
         else write_lock
                (time_sleep ((match e with RetryAfter _ t => t | _ => 0 end) + 1))) ;;;
        again
      else if is_BadRequest e then
        nr <- get_no_retry ;;
        if nr then emit (WarningExc msg_bad_request exc) ;;; ret tt
        else raise exc
      else if is_NetworkError e then
        emit (Warning (msg_network (message e))) ;;;
        incr_retries ;;;
        time_sleep 1 ;;;
        again
      else raise exc
  | _ => raise exc
  end.

(** One activation of [send], [again] standing for the re-invocation. *)
Definition send_body (again : Py unit) (chat_id : ChatId) : Py unit :=
  nr <- get_no_retry ;;
  w <- get ;;
  if nr && bool_decide (1 <= retries (self w))%nat then
    emit (Warning msg_dropped_no_retry) ;;; ret tt
  else if bool_decide (1 <= retries (self w))%nat then ret tt
  else if bool_decide (3 <= retries (self w))%nat then
    emit (Warning msg_dropped_too_many) ;;; raise OverflowError
  else try_except (_send chat_id) (handler again).

(** [Message.send]: [fuel] bounds the nesting of re-invocations, [None] is
    fuel run out. *)
Fixpoint send (fuel : nat) (chat_id : ChatId) : Py unit :=
  match fuel with
  | O => fun _ => None
  | S fuel' => send_body (send fuel' chat_id) chat_id
  end.

(** ** Notions the statements use *)

(** The world with [evs] appended to the trace. *)
Definition logged (w : World) (evs : list Event) : World :=
  {| self := self w; bot := bot w; lock_owner := lock_owner w;
     heap := heap w; trace := trace w ++ evs |}.

(** The world after [self.retries += 1]. *)
Definition retried (w : World) : World :=
  {| self := {| cls := cls (self w); text := text (self w);
                media := media (self w); parse_mode := parse_mode (self w);
                retries := S (retries (self w));
                no_retry := no_retry (self w) |};
     bot := bot w; lock_owner := lock_owner w; heap := heap w;
     trace := trace w |}.

(** How a sleep of [secs] ends, and what it adds to the trace. *)
Definition sleep_result (secs : Z) : Res unit * list Event :=
  if decide (sleep_max < Z.abs secs) then (Raised OverflowError, [])
  else if decide (secs < 0) then (Raised ValueError, [])
  else (Returned tt, [Sleep secs]).

(** How the cooldown of a rate limit ends and what it adds to the trace, on
    the world the handler finds. *)
Definition cooldown (w : World) (retry_after : Z) : Res unit * list Event :=
  if decide (lock_owner w = Some WRITER) then (Returned tt, [])
  else if is_writer (trace w) then sleep_result (retry_after + 1)
  else if is_reader (trace w) then (Raised RuntimeError, [])
  else (fst (sleep_result (retry_after + 1)),
        WriteAcquire :: snd (sleep_result (retry_after + 1)) ++ [WriteRelease]).

(** What the bot answers to the next call, and the world once a call has
    been answered and [evs] recorded. *)
Definition answer (w : World) : Res unit :=
  match bot w with
  | Some e :: _ => Raised (Telegram e)
  | _ => Returned tt
  end.

Definition answered (w : World) (evs : list Event) : World :=
  {| self := self w; bot := tail (bot w); lock_owner := lock_owner w;
     heap := heap w; trace := trace w ++ evs |}.


(** No run of [send] from [w] makes a bot call. *)
Definition no_transport (chat_id : ChatId) (w : World) : Prop :=
  forall fuel r w', send fuel chat_id w = Some (r, w') ->
    attempts (trace w') = attempts (trace w).

End message.

Arguments MediaArg : clear implicits.
Arguments Message : clear implicits.
Arguments World : clear implicits.
Arguments Py : clear implicits.

(** The parse mode a bot call carries; for a media group, the one on its
    first item. *)
Definition call_parse_mode (c : BotCall) : option string :=
  match c with
  | send_message _ _ p _ => p
  | send_photo _ _ _ p | send_video _ _ _ p | send_animation _ _ _ p => p
  | send_media_group _ items =>
      match items with
      | i :: _ => im_parse_mode i
      | [] => None
      end
  end.

(** ** A concrete collaborator, for the examples *)

Module Sample.

(** Media named by their address; the wire item carries no caption. *)
Definition url (m : string) : string := m.
Definition wire (m : string) : InputMedia := mkInputMedia m None None.

Definition chat : ChatId := ChatInt 7.

Definition text_unit (n : nat) (nr : option bool) : Message string :=
  mkMessage TextMsg (Some "hi"%string) NoMedia (Some "HTML"%string) n nr.

Definition album (nr : option bool) : Message string :=
  mkMessage MediaGroupMsg (Some "cap"%string)
    (Media ["a"; "b"; "c"]%string) (Some "HTML"%string) 0 nr.

Definition world (m : Message string) (script : list (option TelegramError))
    : World string :=
  mkWorld m script None ∅ [].

(** The call a text unit of the sample makes, and what it leaves in the
    trace. *)
Definition text_call : BotCall :=
  send_message chat (Some "hi"%string) (Some "HTML"%string) true.

Definition text_attempt : list Event :=
  [ReadAcquire; Transport text_call; ReadRelease].


Definition w_spent : World string :=
  world (text_unit 3 (Some false)) [None].

Definition w_bad : World string :=
  world (text_unit 0 (Some true)) [Some (BadRequest "bad")].

Definition w_flood : World string :=
  world (text_unit 0 (Some false)) [Some (RetryAfter "flood" 5); None].

Definition w_timeout : World string :=
  world (text_unit 0 (Some false)) [Some (TimedOut "late"); None].

Definition w_album : World string := world (album (Some false)) [].

End Sample.

(** ** What a flow holds of the lock, and how a first activation ends *)

(** What this flow holds of [Message._lock] at a point of its trace. *)
Inductive Held : Type := Free | Reading | Writing.

(** One event against what the flow holds: a lock is only taken by a flow
    that holds nothing and released by the flow that holds it, a bot call is
    made under the read lock, and the flow does not sleep inside the read
    lock.  [None] is a breach. *)
Definition lock_step (s : Held) (ev : Event) : option Held :=
  match ev, s with
  | ReadAcquire, Free => Some Reading
  | ReadRelease, Reading => Some Free
  | WriteAcquire, Free => Some Writing
  | WriteRelease, Writing => Some Free
  | Transport _, Reading => Some Reading
  | Sleep _, Free => Some Free
  | Sleep _, Writing => Some Writing
  | Warning _, _ => Some s
  | WarningExc _ _, _ => Some s
  | _, _ => None
  end.

Fixpoint lock_run (s : Held) (tr : list Event) : option Held :=
  match tr with
  | [] => Some s
  | ev :: tr' =>
      match lock_step s ev with
      | Some s' => lock_run s' tr'
      | None => None
      end
  end.

Section outcomes.

Context {Medium : Type}.


(** The guard on a unit with one failure counted: a warning for a unit that
    is not to be retried, nothing otherwise. *)
Definition dropped (b : bool) (w : World Medium) : World Medium :=
  if b then logged w [Warning msg_dropped_no_retry] else w.

(** The end of a first activation of [send] on a unit with [no_retry]
    bound to [b], from what [_send] gave. *)
Definition settle (b : bool) (r1 : Res unit) (w1 : World Medium)
    : Res unit * World Medium :=
  match r1 with
  | Raised (Telegram e) =>
      match e with
      | RetryAfter msg t =>
          let w2 := logged (retried w1) (Warning msg :: snd (cooldown w1 t)) in
          match fst (cooldown w1 t) with
          | Returned _ => (Returned tt, dropped b w2)
          | Raised exc => (Raised exc, w2)
          end
      | BadRequest msg =>
          if b
          then (Returned tt,
                logged w1 [WarningExc msg_bad_request (Telegram e)])
          else (r1, w1)
      | TimedOut msg | NetworkError msg =>
          (Returned tt,
           dropped b (logged (retried w1)
                        [Warning (msg_network msg); Sleep 1]))
      | OtherTelegramError _ => (r1, w1)
      end
  | _ => (r1, w1)
  end.

End outcomes.

(** ** More worlds of the sample collaborator *)

Module Cases.

Definition w_denied : World string :=
  Sample.world (Sample.text_unit 0 (Some false))
    [Some (OtherTelegramError "Forbidden")].

Definition w_refused : World string :=
  Sample.world (Sample.text_unit 0 (Some false)) [Some (BadRequest "bad")].

Definition photo_unit (med : MediaArg string) : Message string :=
  mkMessage PhotoMsg (Some "cap"%string) med (Some "HTML"%string) 0
    (Some false).

Definition w_photo_list : World string :=
  Sample.world (photo_unit (Media ["a"; "b"]%string)) [None].

Definition group_unit (med : MediaArg string) : Message string :=
  mkMessage MediaGroupMsg (Some "cap"%string) med (Some "HTML"%string) 0
    (Some false).

Definition w_group_empty : World string :=
  Sample.world (group_unit (Media [])) [None].

(** A rate limit met while another flow is the writer of the lock, one met
    by a flow that is itself a reader, and rate limits whose [retry_after]
    [time.sleep] does not take. *)
Definition w_foreign_writer : World string :=
  mkWorld (Sample.text_unit 0 (Some false))
    [Some (RetryAfter "flood" 5); None] (Some WRITER) ∅ [].

Definition w_reader : World string :=
  mkWorld (Sample.text_unit 0 (Some false))
    [Some (RetryAfter "flood" 5); None] (Some READER) ∅ [ReadAcquire].

Definition w_negative : World string :=
  Sample.world (Sample.text_unit 0 (Some false))
    [Some (RetryAfter "flood" (-2)); None].

Definition w_endless : World string :=
  Sample.world (Sample.text_unit 0 (Some false))
    [Some (RetryAfter "flood" 10000000000); None].

End Cases.

(** ** Facts about the bot calls *)

Section facts.

Context {Medium : Type}.
Variable get_url : Medium -> string.
Variable to_wire : Medium -> InputMedia.

Implicit Types (w : World Medium) (chat_id : ChatId) (ms : list Medium).

(** Unfolds the steps of the monad down to the worlds they build. *)
Ltac py_unfold :=
  cbv [read_locked write_lock finally media_get_url media_group_send
       get_no_retry incr_retries setattr telegramize try_except
       bind emit get set_self set_heap raise ret];
  simpl.

Ltac py_unfold_in H :=
  cbv [read_locked write_lock finally media_get_url media_group_send
       get_no_retry incr_retries setattr telegramize try_except
       bind emit get set_self set_heap raise ret] in H;
  simpl in H.

Lemma attempts_app (tr1 tr2 : list Event) :
  attempts (tr1 ++ tr2) = (attempts tr1 + attempts tr2)%nat.
Proof. unfold attempts. by rewrite filter_app, length_app. Qed.

(** [telegramize] over a sequence: one new object per medium, in order, at
    addresses that are pairwise distinct and were free before; nothing but
    the heap changes, and the objects that were there stay. *)
Lemma map_telegramize_run ms w :
  exists ls w',
    map_telegramize to_wire ms w = Some (Returned ls, w')
    /\ self w' = self w /\ bot w' = bot w /\ lock_owner w' = lock_owner w
    /\ trace w' = trace w
    /\ heap w ⊆ heap w'
    /\ NoDup ls
    /\ (forall l, l ∈ ls -> l ∉ dom (heap w))
    /\ Forall2 (fun l m => heap w' !! l = Some (to_wire m)) ls ms.
Proof.
  revert w. induction ms as [|m ms IH]; intros w.
  - exists [], w. simpl. unfold ret. repeat split; try done.
    + constructor.
    + intros l Hl. by apply elem_of_nil in Hl.
  - set (l := fresh (dom (heap w))).
    set (w1 := {| self := self w; bot := bot w; lock_owner := lock_owner w;
                  heap := <[l := to_wire m]> (heap w); trace := trace w |}).
    destruct (IH w1) as (ls & w' & Hrun & Hs & Hb & Ho & Ht & Hsub & Hnd & Hfr & Hall).
    assert (Hl : heap w !! l = None).
    { apply not_elem_of_dom. apply is_fresh. }
    exists (l :: ls), w'.
    split; [|repeat split].
    + simpl. unfold bind at 1. unfold telegramize, bind, get, set_heap, ret.
      fold l. fold w1. unfold bind in Hrun. by rewrite Hrun.
    + done.
    + done.
    + done.
    + done.
    + etrans; [|exact Hsub]. simpl. by apply insert_subseteq.
    + constructor; [|done]. intros Hin. apply (Hfr l Hin).
      simpl. rewrite dom_insert_L. set_solver.
    + intros x Hx. apply elem_of_cons in Hx as [->|Hx].
      * by apply not_elem_of_dom.
      * intros Hd. apply (Hfr x Hx). simpl. rewrite dom_insert_L. set_solver.
    + constructor; [|done].
      eapply lookup_weaken; [|exact Hsub]. simpl. apply lookup_insert_eq.
Qed.

(** Reading the items back after the two assignments to the first one: the
    first carries what was assigned, every other item is as it was built. *)
Lemma deref_after_setattr (h : gmap positive InputMedia)
    (f : InputMedia -> InputMedia) (l : positive) (ls : list positive)
    (m : Medium) ms :
  NoDup (l :: ls) ->
  Forall2 (fun l m => h !! l = Some (to_wire m)) (l :: ls) (m :: ms) ->
  (fun x => alter f l h !!! x) <$> (l :: ls) = f (to_wire m) :: (to_wire <$> ms).
Proof.
  intros Hnd Hall.
  apply NoDup_cons in Hnd as [Hnotin _].
  apply Forall2_cons in Hall as [Hl Hall].
  rewrite fmap_cons. f_equal.
  - rewrite lookup_total_alter_eq. by rewrite Hl.
  - clear Hl. revert Hnotin.
    induction Hall as [|x y ls' ms' Hx Hall IH]; intros Hnotin; [done|].
    rewrite !fmap_cons. f_equal.
    + rewrite lookup_total_alter_ne; [by apply lookup_total_correct|].
      intros ->. apply Hnotin. by left.
    + apply IH. intros Hin. apply Hnotin. by right.
Qed.

Lemma call_bot_run (c : BotCall) w :
  call_bot c w = Some (answer w, answered w [Transport c]).
Proof.
  unfold call_bot, bind, emit, answer, answered.
  destruct w as [m b o h tr]; simpl. by destruct b as [|[e|] b].
Qed.

Lemma read_locked_call_bot (c : BotCall) w :
  read_locked (call_bot c) w
  = Some (answer w, answered w [ReadAcquire; Transport c; ReadRelease]).
Proof.
  unfold read_locked, finally, bind at 1. unfold emit at 1.
  rewrite call_bot_run. unfold emit, answer, answered; simpl.
  by rewrite <- !app_assoc.
Qed.

(** The body of [MediaGroupMsg._send] on a non-empty sequence: one call,
    with the items in the order of the media, the first one re-captioned. *)
Lemma media_group_send_run chat_id w (m : Medium) ms :
  media (self w) = Media (m :: ms) ->
  exists w',
    media_group_send to_wire chat_id w = Some (answer w, w')
    /\ self w' = self w /\ bot w' = tail (bot w)
    /\ lock_owner w' = lock_owner w
    /\ trace w' = trace w ++
         [Transport (send_media_group chat_id
            (set_parse_mode (parse_mode (self w))
               (set_caption (text (self w)) (to_wire m))
             :: (to_wire <$> ms)))].
Proof.
  intros Hmedia.
  destruct (map_telegramize_run (m :: ms) w)
    as (ls & w1 & Hrun & Hs & Hb & Ho & Ht & _ & Hnd & _ & Hall).
  destruct ls as [|l ls]; [by apply Forall2_nil_cons_inv in Hall|].
  unfold media_group_send, bind at 1, get. rewrite Hmedia.
  unfold bind at 1. rewrite Hrun.
  unfold setattr, bind, get, set_heap. simpl. rewrite call_bot_run.
  unfold answer, answered. simpl. rewrite Hb, Hs, Ho, Ht.
  eexists. split; [reflexivity|]. simpl. repeat split.
  rewrite alter_alter_eq.
  apply (f_equal (fun x => trace w ++ [Transport (send_media_group chat_id x)])).
  exact (deref_after_setattr (heap w1) _ l ls m ms Hnd Hall).
Qed.

(** What one [_send] can do: either it fails before any bot call, with an
    error that is not the bot's, or it makes exactly one call under the read
    lock and hands on the bot's answer.  The unit itself is not touched. *)
Lemma _send_run chat_id w :
  exists r w1,
    _send get_url to_wire chat_id w = Some (r, w1)
    /\ self w1 = self w /\ lock_owner w1 = lock_owner w
    /\ ((exists tr, trace w1 = trace w ++ tr /\ attempts tr = 0%nat
                    /\ bot w1 = bot w
                    /\ r ∈ [Returned tt; Raised AttributeError;
                             Raised TypeError; Raised IndexError])
        \/ (exists c, trace w1 = trace w ++ [ReadAcquire; Transport c; ReadRelease]
                      /\ bot w1 = tail (bot w) /\ r = answer w)).
Proof.
  unfold _send, bind at 1, get.
  destruct (cls (self w)) eqn:Hcls.
  - exists (Returned tt), w. unfold ret. repeat split.
    left. exists []. rewrite app_nil_r. repeat split. set_solver.
  - rewrite read_locked_call_bot. do 2 eexists. split; [reflexivity|].
    repeat split. right. eexists. by repeat split.
  - destruct (media (self w)) as [|m|ms] eqn:Hmedia.
    all: py_unfold; rewrite Hmedia; simpl.
    2: { rewrite call_bot_run. unfold answer, answered, emit; simpl.
         do 2 eexists. split; [reflexivity|]. repeat split.
         right. eexists. rewrite <- !app_assoc. by repeat split. }
    all: do 2 eexists; (split; [reflexivity|]); repeat split; left;
      exists [ReadAcquire; ReadRelease]; rewrite <- app_assoc; repeat split;
      set_solver.
  - destruct (media (self w)) as [|m|ms] eqn:Hmedia.
    all: py_unfold; rewrite Hmedia; simpl.
    2: { rewrite call_bot_run. unfold answer, answered, emit; simpl.
         do 2 eexists. split; [reflexivity|]. repeat split.
         right. eexists. rewrite <- !app_assoc. by repeat split. }
    all: do 2 eexists; (split; [reflexivity|]); repeat split; left;
      exists [ReadAcquire; ReadRelease]; rewrite <- app_assoc; repeat split;
      set_solver.
  - destruct (media (self w)) as [|m|ms] eqn:Hmedia.
    all: py_unfold; rewrite Hmedia; simpl.
    2: { rewrite call_bot_run. unfold answer, answered, emit; simpl.
         do 2 eexists. split; [reflexivity|]. repeat split.
         right. eexists. rewrite <- !app_assoc. by repeat split. }
    all: do 2 eexists; (split; [reflexivity|]); repeat split; left;
      exists [ReadAcquire; ReadRelease]; rewrite <- app_assoc; repeat split;
      set_solver.
  - unfold read_locked, finally, bind at 1. unfold emit at 1.
    set (w0 := {| self := self w; bot := bot w; lock_owner := lock_owner w;
                  heap := heap w; trace := trace w ++ [ReadAcquire] |}).
    destruct (media (self w)) as [|m|[|m ms]] eqn:Hmedia.
    4: { destruct (media_group_send_run chat_id w0 m ms Hmedia)
           as (w' & Hrun & Hs & Hb & Ho & Ht).
         rewrite Hrun. unfold emit. simpl.
         do 2 eexists. split; [reflexivity|]. simpl. repeat split; [done..|].
         right. eexists. rewrite Ht. simpl. rewrite <- !app_assoc.
         by repeat split. }
    all: py_unfold; rewrite Hmedia; simpl.
    all: do 2 eexists; (split; [reflexivity|]); repeat split; left;
      exists [ReadAcquire; ReadRelease]; rewrite <- app_assoc; repeat split;
      set_solver.
Qed.

(** ** The guard and the handlers of [send] *)

(** With one failure counted, an activation of [send] is decided by the
    guard alone: no bot call, no re-invocation. *)
Lemma send_body_guarded (again : Py Medium unit) chat_id w :
  (1 <= retries (self w))%nat ->
  send_body get_url to_wire again chat_id w
  = Some (match no_retry (self w) with
          | None => (Raised AttributeError, w)
          | Some true => (Returned tt, logged w [Warning msg_dropped_no_retry])
          | Some false => (Returned tt, w)
          end).
Proof.
  intros Hge. unfold send_body. py_unfold.
  destruct (no_retry (self w)) as [[|]|]; [| |done].
  all: by rewrite (bool_decide_eq_true_2 _ Hge).
Qed.

(** With no failure counted and [no_retry] bound, the guard lets the
    activation through to the try statement. *)
Lemma send_body_first (again : Py Medium unit) chat_id w (b : bool) :
  retries (self w) = 0%nat -> no_retry (self w) = Some b ->
  send_body get_url to_wire again chat_id w
  = try_except (_send get_url to_wire chat_id) (handler again) w.
Proof.
  intros Hr Hnr. unfold send_body, bind at 1, get_no_retry, bind at 1, get.
  rewrite Hnr. unfold ret at 1, bind at 1. rewrite Hr. simpl.
  by rewrite andb_false_r.
Qed.

(** Log lines, bot calls and sleeps change nothing of what the flow holds,
    and an attempt of [_send] leaves the flow holding what it held. *)
Lemma flow_holds_app (tr evs : list Event) :
  flow_holds (tr ++ evs) = foldl flow_step (flow_holds tr) evs.
Proof. unfold flow_holds. apply foldl_app. Qed.

Lemma is_writer_app_warning (tr : list Event) (msg : string) :
  is_writer (tr ++ [Warning msg]) = is_writer tr.
Proof. unfold is_writer. by rewrite flow_holds_app. Qed.

Lemma is_reader_app_warning (tr : list Event) (msg : string) :
  is_reader (tr ++ [Warning msg]) = is_reader tr.
Proof. unfold is_reader. by rewrite flow_holds_app. Qed.

Lemma flow_holds_attempt (tr : list Event) (c : BotCall) :
  flow_holds (tr ++ [ReadAcquire; Transport c; ReadRelease]) = flow_holds tr.
Proof. rewrite flow_holds_app. simpl. by destruct (flow_holds tr). Qed.

Lemma time_sleep_one : @time_sleep Medium 1 = emit (Sleep 1).
Proof. reflexivity. Qed.

(** The cooldown makes no bot call, and keeps the discipline of the lock
    when the flow came to it holding nothing of the lock or all of it. *)
Lemma cooldown_attempts w (t : Z) : attempts (snd (cooldown w t)) = 0%nat.
Proof.
  unfold cooldown, sleep_result.
  repeat match goal with
         | |- context [decide ?P] => destruct (decide P)
         | |- context [is_writer ?x] => destruct (is_writer x)
         | |- context [is_reader ?x] => destruct (is_reader x)
         end; reflexivity.
Qed.

Lemma cooldown_lock_run w (t : Z) :
  lock_run Free (snd (cooldown w t)) = Some Free.
Proof.
  unfold cooldown, sleep_result.
  repeat match goal with
         | |- context [decide ?P] => destruct (decide P)
         | |- context [is_writer ?x] => destruct (is_writer x)
         | |- context [is_reader ?x] => destruct (is_reader x)
         end; reflexivity.
Qed.

(** The handler of [RetryAfter]: warning, count, the cooldown; then [send]
    again, unless the cooldown raised. *)
Lemma handler_RetryAfter (again : Py Medium unit) (msg : string) (t : Z) w :
  handler again (Telegram (RetryAfter msg t)) w
  = match fst (cooldown w t) with
    | Returned _ =>
        again (logged (retried w) (Warning msg :: snd (cooldown w t)))
    | Raised exc =>
        Some (Raised exc,
              logged (retried w) (Warning msg :: snd (cooldown w t)))
    end.
Proof.
  unfold handler, cooldown, sleep_result, logged, retried, time_sleep.
  cbv [is_RetryAfter write_lock finally incr_retries bind emit get set_self
       raise ret].
  cbn [self bot lock_owner heap trace cls text media parse_mode retries
       no_retry].
  destruct (decide (lock_owner w = Some WRITER)); cbn; [done|].
  rewrite is_writer_app_warning. destruct (is_writer (trace w)); cbn.
  { destruct (decide (sleep_max < Z.abs (t + 1))); cbn; [done|].
    destruct (decide (t + 1 < 0)); cbn; [done|]. by rewrite <- !app_assoc. }
  rewrite is_reader_app_warning. destruct (is_reader (trace w)); cbn; [done|].
  destruct (decide (sleep_max < Z.abs (t + 1))); cbn;
    [by rewrite <- !app_assoc|].
  destruct (decide (t + 1 < 0)); cbn; by rewrite <- !app_assoc.
Qed.

Lemma handler_NetworkError (again : Py Medium unit) (e : TelegramError) w :
  is_NetworkError e = true -> is_BadRequest e = false ->
  handler again (Telegram e) w
  = again (logged (retried w) [Warning (msg_network (message e)); Sleep 1]).
Proof.
  intros Hn Hb. unfold handler, logged, retried.
  destruct e; try discriminate; simpl; rewrite time_sleep_one; py_unfold;
    by rewrite <- !app_assoc.
Qed.

Lemma handler_BadRequest (again : Py Medium unit) (msg : string) w (b : bool) :
  no_retry (self w) = Some b ->
  handler again (Telegram (BadRequest msg)) w
  = Some (if b
          then (Returned tt,
                logged w [WarningExc msg_bad_request (Telegram (BadRequest msg))])
          else (Raised (Telegram (BadRequest msg)), w)).
Proof.
  intros Hnr. unfold handler, logged. py_unfold. rewrite Hnr. by destruct b.
Qed.

(** One activation of [send] either finishes by itself, after at most one
    bot call, or ends in a single re-invocation, made after exactly one
    failed bot call on a world whose counter has gone from 0 to 1. *)
Lemma send_body_cases (again : Py Medium unit) chat_id w :
  (exists r w' tr,
      (forall again', send_body get_url to_wire again' chat_id w = Some (r, w'))
      /\ trace w' = trace w ++ tr /\ (attempts tr <= 1)%nat)
  \/ (exists w2 tr,
      (forall again', send_body get_url to_wire again' chat_id w = again' w2)
      /\ retries (self w) = 0%nat /\ retries (self w2) = 1%nat
      /\ no_retry (self w2) = no_retry (self w)
      /\ is_Some (no_retry (self w))
      /\ trace w2 = trace w ++ tr /\ attempts tr = 1%nat).
Proof.
  destruct (retries (self w)) as [|n] eqn:Hr.
  2: { left. pose proof (send_body_guarded) as Hg.
       destruct (no_retry (self w)) as [[|]|] eqn:Hnr.
       - exists (Returned tt), (logged w [Warning msg_dropped_no_retry]),
           [Warning msg_dropped_no_retry].
         split; [|split; [done|by cbv; lia]].
         intros again'. rewrite Hg by lia. by rewrite Hnr.
       - exists (Returned tt), w, [].
         split; [|split; [by rewrite app_nil_r|by cbv; lia]].
         intros again'. rewrite Hg by lia. by rewrite Hnr.
       - exists (Raised AttributeError), w, [].
         split; [|split; [by rewrite app_nil_r|by cbv; lia]].
         intros again'. rewrite Hg by lia. by rewrite Hnr. }
  destruct (no_retry (self w)) as [b|] eqn:Hnr.
  2: { left. exists (Raised AttributeError), w, []. split.
       - intros again'. unfold send_body. py_unfold. by rewrite Hnr.
       - split; [symmetry; apply app_nil_r|by cbv; lia]. }
  destruct (_send_run chat_id w) as (r1 & w1 & Hrun & Hs & Ho & Hshape).
  assert (Hbody : forall again',
     send_body get_url to_wire again' chat_id w
     = match r1 with
       | Raised e => handler again' e w1
       | Returned _ => Some (r1, w1)
       end).
  { intros again'. rewrite (send_body_first again' chat_id w b Hr Hnr).
    unfold try_except. rewrite Hrun. by destruct r1. }
  destruct Hshape as [(tr & Ht & Hatt & _ & Hin)|(c & Ht & Hb & Hans)].
  - left. exists r1, w1, tr.
    assert (Hr1 : r1 = Returned tt \/ r1 = Raised AttributeError
                  \/ r1 = Raised TypeError \/ r1 = Raised IndexError).
    { rewrite !elem_of_cons, elem_of_nil in Hin. tauto. }
    split; [|split; [done|lia]].
    intros again'. rewrite Hbody.
    by destruct Hr1 as [->|[->|[->| ->]]].
  - assert (Hcases : r1 = Returned tt \/ exists e, r1 = Raised (Telegram e)).
    { unfold answer in Hans. destruct (bot w) as [|[e|] rest]; subst r1; eauto. }
    destruct Hcases as [->|[e ->]].
    { left. exists (Returned tt), w1, [ReadAcquire; Transport c; ReadRelease].
      split; [by intros; rewrite Hbody|]. split; [done|by cbv; lia]. }
    destruct (is_RetryAfter e) eqn:Hra.
    { destruct e as [msg t| | | |]; try discriminate.
      pose proof (cooldown_attempts w1 t) as Hcool.
      destruct (fst (cooldown w1 t)) as [u|exc] eqn:Hres.
      - right. eexists _, ([ReadAcquire; Transport c; ReadRelease]
                           ++ Warning msg :: snd (cooldown w1 t)).
        split; [by intros again'; rewrite Hbody, handler_RetryAfter, Hres|].
        simpl. rewrite Hs, Hr, Hnr, Ht, <- app_assoc.
        repeat split; [by eexists|].
        change (attempts ([ReadAcquire; Transport c; ReadRelease]
                          ++ [Warning msg] ++ snd (cooldown w1 t)) = 1%nat).
        rewrite !attempts_app, Hcool. reflexivity.
      - left. eexists _, _, ([ReadAcquire; Transport c; ReadRelease]
                             ++ [Warning msg] ++ snd (cooldown w1 t)).
        split; [by intros again'; rewrite Hbody, handler_RetryAfter, Hres|].
        simpl. rewrite Ht, <- app_assoc. split; [done|].
        change (attempts ([ReadAcquire; Transport c; ReadRelease; Warning msg]
                          ++ snd (cooldown w1 t)) <= 1)%nat.
        rewrite attempts_app, Hcool. cbv. lia. }
    destruct (is_BadRequest e) eqn:Hbr.
    { destruct e as [|msg| | |]; try discriminate.
      left. rewrite <- Hs in Hnr.
      pose proof (fun again' => handler_BadRequest again' msg w1 b Hnr) as Hh.
      destruct b.
      - eexists _, _, ([ReadAcquire; Transport c; ReadRelease] ++ [_]).
        split; [by intros again'; rewrite Hbody, Hh|].
        simpl. rewrite Ht, <- app_assoc.
        split; [reflexivity|by cbv; lia].
      - eexists _, _, _.
        split; [by intros again'; rewrite Hbody, Hh|].
        split; [exact Ht|by cbv; lia]. }
    destruct (is_NetworkError e) eqn:Hne.
    { right. eexists _, ([ReadAcquire; Transport c; ReadRelease]
                         ++ [Warning (msg_network (message e)); Sleep 1]).
      split; [by intros again'; rewrite Hbody; apply handler_NetworkError|].
      simpl. rewrite Hs, Hr, Hnr, Ht, <- app_assoc. by repeat split. }
    left. exists (Raised (Telegram e)), w1, [ReadAcquire; Transport c; ReadRelease].
    split.
    + intros again'. rewrite Hbody. unfold handler. by rewrite Hra, Hbr, Hne.
    + split; [done|by cbv; lia].
Qed.

(** ** Runs of [send] *)

(** A re-invocation on a world with a failure counted does not depend on
    the fuel it is given, as long as there is some. *)
Lemma send_counted_fuel (fuel : nat) chat_id w :
  (1 <= retries (self w))%nat ->
  send get_url to_wire (S fuel) chat_id w = send get_url to_wire 1 chat_id w.
Proof. intros Hge. simpl. by rewrite !send_body_guarded. Qed.

Lemma send_fuel_irrelevant (fuel : nat) chat_id w :
  send get_url to_wire (S (S fuel)) chat_id w = send get_url to_wire 2 chat_id w.
Proof.
  change (send_body get_url to_wire (send get_url to_wire (S fuel) chat_id) chat_id w
          = send_body get_url to_wire (send get_url to_wire 1 chat_id) chat_id w).
  destruct (send_body_cases (send get_url to_wire 1 chat_id) chat_id w)
    as [(r & w' & tr & Hrun & _)|(w2 & tr & Hrun & _ & Hr2 & _)].
  - by rewrite !Hrun.
  - rewrite !Hrun. apply send_counted_fuel. lia.
Qed.

(** Every run of [send] that ends has made at most one bot call. *)
Lemma send_at_most_one_attempt (fuel : nat) chat_id w r w' :
  send get_url to_wire fuel chat_id w = Some (r, w') ->
  exists tr, trace w' = trace w ++ tr /\ (attempts tr <= 1)%nat.
Proof.
  destruct fuel as [|fuel]; [done|]. simpl.
  destruct (send_body_cases (send get_url to_wire fuel chat_id) chat_id w)
    as [(r0 & w0 & tr & Hrun & Ht & Hatt)
       |(w2 & tr & Hrun & _ & Hr2 & Hnr & _ & Ht & Hatt)].
  - rewrite Hrun. intros [= <- <-]. by exists tr.
  - rewrite Hrun. destruct fuel as [|fuel]; [done|]. simpl.
    rewrite send_body_guarded by lia.
    destruct (no_retry (self w2)) as [[|]|]; intros [= <- <-].
    + exists (tr ++ [Warning msg_dropped_no_retry]). simpl.
      rewrite Ht, <- app_assoc, attempts_app, Hatt. split; [done|].
      by cbv; lia.
    + exists tr. split; [done|lia].
    + exists tr. split; [done|lia].
Qed.

(** C1: at the unit of the claim (a text unit, [no_retry = false], nothing
    counted yet) and three transient network errors in a row, [send] makes
    one bot call, counts one failure and returns: no second or third call is
    made and no [OverflowError] is raised; two of the three errors are never
    asked for. *)
Theorem send_three_failures_one_attempt (fuel : nat) chat_id
    (txt pm : option string) (a b c : string) (o : option Owner)
    (h : gmap positive InputMedia) :
  let unit := mkMessage TextMsg txt NoMedia pm 0 (Some false) in
  let script := [Some (NetworkError a); Some (NetworkError b);
                 Some (NetworkError c)] in
  exists w',
    send get_url to_wire (S (S fuel)) chat_id (mkWorld unit script o h [])
    = Some (Returned tt, w')
    /\ attempts (trace w') = 1%nat
    /\ retries (self w') = 1%nat
    /\ bot w' = [Some (NetworkError b); Some (NetworkError c)]
    /\ trace w' = [ReadAcquire; Transport (send_message chat_id txt pm true);
                   ReadRelease; Warning (msg_network a); Sleep 1].
Proof.
  intros unit script. rewrite send_fuel_irrelevant.
  eexists. split; [reflexivity|]. by repeat split.
Qed.

(** C3: [__init__] takes the class, text, media and parse mode, and binds
    no [no_retry]; [send] on the unit it built stops at the first test of
    the guard with [AttributeError], whatever the arguments were, before any
    log line or bot call. *)
Theorem send_fresh_unit_AttributeError (fuel : nat) chat_id (c : MsgClass)
    (txt : option (option string)) (med : option (MediaArg Medium))
    (pm : option (option string)) (script : list (option TelegramError))
    (o : option Owner) (h : gmap positive InputMedia) (tr : list Event) :
  let w := mkWorld (__init__ c txt med pm) script o h tr in
  no_retry (self w) = None
  /\ send get_url to_wire (S fuel) chat_id w = Some (Raised AttributeError, w).
Proof. by split. Qed.

(** On a world with a failure counted, an activation ends whatever the
    re-invocation is, and adds no bot call. *)
Lemma send_counted_unit_guard chat_id w :
  (1 <= retries (self w))%nat ->
  exists r w',
    (forall again, send_body get_url to_wire again chat_id w = Some (r, w'))
    /\ attempts (trace w') = attempts (trace w)
    /\ bot w' = bot w /\ self w' = self w.
Proof.
  intros Hge. pose proof send_body_guarded as Hg.
  destruct (no_retry (self w)) as [[|]|] eqn:Hnr; eexists _, _.
  all: split; [by intros again; rewrite Hg, Hnr|]; try done.
  simpl. rewrite attempts_app. cbv [attempts filter]. simpl. split; [lia|done].
Qed.

(** A bot error out of [_send] comes from exactly one call, under the read
    lock, which it has left again; the unit is as it was. *)
Lemma _send_raises_telegram chat_id w w1 (e : TelegramError) :
  _send get_url to_wire chat_id w = Some (Raised (Telegram e), w1) ->
  self w1 = self w /\ lock_owner w1 = lock_owner w
  /\ exists c, trace w1 = trace w ++ [ReadAcquire; Transport c; ReadRelease].
Proof.
  intros Hrun.
  destruct (_send_run chat_id w) as (r & w' & Hrun' & Hs & Ho & Hshape).
  rewrite Hrun in Hrun'. injection Hrun' as <- <-.
  split; [done|]. split; [done|].
  destruct Hshape as [(tr & _ & _ & _ & Hin)|(c & Ht & _)]; [|by exists c].
  rewrite !elem_of_cons, elem_of_nil in Hin.
  by destruct Hin as [?|[?|[?|[?|[]]]]].
Qed.

(** C5: when the bot call of a unit with [no_retry] bound to [b] fails with
    [BadRequest], [send] ends in this very activation (fuel 1 is enough, so
    nothing is re-invoked): with [b] true it logs one warning and returns,
    with [b] false it raises the same [BadRequest]; the counter is as
    before and the failed call is the only bot call. *)
Theorem send_BadRequest (fuel : nat) chat_id w w1 (b : bool) (msg : string) :
  retries (self w) = 0%nat ->
  no_retry (self w) = Some b ->
  _send get_url to_wire chat_id w = Some (Raised (Telegram (BadRequest msg)), w1) ->
  exists r w',
    send get_url to_wire (S fuel) chat_id w = Some (r, w')
    /\ r = (if b then Returned tt else Raised (Telegram (BadRequest msg)))
    /\ trace w' = trace w1 ++
         (if b then [WarningExc msg_bad_request (Telegram (BadRequest msg))]
          else [])
    /\ retries (self w') = retries (self w)
    /\ attempts (trace w') = S (attempts (trace w)).
Proof.
  intros Hr Hnr Hrun.
  destruct (_send_raises_telegram chat_id w w1 _ Hrun) as (Hs & _ & c & Ht).
  simpl. rewrite (send_body_first _ chat_id w b Hr Hnr).
  unfold try_except. rewrite Hrun.
  rewrite <- Hs in Hnr. rewrite (handler_BadRequest _ msg w1 b Hnr).
  destruct b; eexists _, _; (split; [reflexivity|]); simpl.
  - rewrite Hs, Ht, !attempts_app. repeat split. cbv [attempts filter]. simpl. lia.
  - rewrite Hs, Ht, !attempts_app, app_nil_r. repeat split.
    cbv [attempts filter]. simpl. lia.
Qed.

(** The cooldown after an attempt of [_send] is the cooldown of the world
    the attempt started from. *)
Lemma cooldown_after_attempt w w1 (c : BotCall) (t : Z) :
  lock_owner w1 = lock_owner w ->
  trace w1 = trace w ++ [ReadAcquire; Transport c; ReadRelease] ->
  cooldown w1 t = cooldown w t.
Proof.
  intros Ho Ht. unfold cooldown, is_writer, is_reader.
  by rewrite Ho, Ht, flow_holds_attempt.
Qed.

Lemma cooldown_skipped w (t : Z) :
  lock_owner w = Some WRITER -> cooldown w t = (Returned tt, []).
Proof. intros Ho. unfold cooldown. by rewrite decide_True. Qed.

Lemma cooldown_taken w (t : Z) :
  lock_owner w <> Some WRITER ->
  flow_holds (trace w) = (0%nat, false) ->
  0 <= t + 1 <= sleep_max ->
  cooldown w t
  = (Returned tt, [WriteAcquire; Sleep (t + 1); WriteRelease]).
Proof.
  intros Ho Hh Ht. unfold cooldown, is_writer, is_reader, sleep_result.
  rewrite Hh. simpl. rewrite decide_False by done.
  rewrite decide_False by lia. by rewrite decide_False by lia.
Qed.

(** C6, as amended: when the bot call fails with [RetryAfter] carrying [t],
    [send] logs the message of the error and adds one to the counter.  When
    the owner of the lock is [WRITER], whichever flow that is, it takes no
    lock and does not sleep; otherwise, from a flow that holds nothing of
    the lock and for a [t + 1] that [time.sleep] takes, it takes the write
    lock, sleeps [t + 1] and releases it.  Then it hands over to [send]
    again on that world, whatever [send] does there; and the run as a whole
    returns, after the warning of the guard for a unit not to be retried. *)
Theorem send_RetryAfter_cooldown chat_id w w1 (b : bool) (msg : string) (t : Z) :
  retries (self w) = 0%nat ->
  no_retry (self w) = Some b ->
  _send get_url to_wire chat_id w
    = Some (Raised (Telegram (RetryAfter msg t)), w1) ->
  lock_owner w = Some WRITER
    \/ (flow_holds (trace w) = (0%nat, false) /\ 0 <= t + 1 <= sleep_max) ->
  exists w2,
    (forall again : Py Medium unit,
        send_body get_url to_wire again chat_id w = again w2)
    /\ retries (self w2) = S (retries (self w))
    /\ trace w2 = trace w1 ++ Warning msg ::
         (if decide (lock_owner w = Some WRITER) then []
          else [WriteAcquire; Sleep (t + 1); WriteRelease])
    /\ bot w2 = bot w1
    /\ (forall fuel,
          send get_url to_wire (S (S fuel)) chat_id w
          = Some (Returned tt,
                  if b then logged w2 [Warning msg_dropped_no_retry] else w2)).
Proof.
  intros Hr Hnr Hrun Hpre.
  destruct (_send_raises_telegram chat_id w w1 _ Hrun) as (Hs & Ho & c & Ht).
  assert (Hcool : cooldown w1 t
                  = (Returned tt,
                     if decide (lock_owner w = Some WRITER) then []
                     else [WriteAcquire; Sleep (t + 1); WriteRelease])).
  { rewrite (cooldown_after_attempt w w1 c t Ho Ht).
    destruct (decide (lock_owner w = Some WRITER)) as [Hw|Hw].
    - by apply cooldown_skipped.
    - destruct Hpre as [|[Hh Hrange]]; [done|]. by apply cooldown_taken. }
  set (w2 := logged (retried w1) (Warning msg :: snd (cooldown w1 t))).
  assert (Hbody : forall again : Py Medium unit,
             send_body get_url to_wire again chat_id w = again w2).
  { intros again. rewrite (send_body_first again chat_id w b Hr Hnr).
    unfold try_except, w2. rewrite Hrun, handler_RetryAfter. by rewrite Hcool. }
  exists w2. split; [exact Hbody|].
  split; [by simpl; rewrite Hs|].
  split; [by simpl; rewrite Hcool|].
  split; [done|].
  intros fuel.
  change (send get_url to_wire (S (S fuel)) chat_id w)
    with (send_body get_url to_wire (send get_url to_wire (S fuel) chat_id)
            chat_id w).
  rewrite Hbody. simpl send. rewrite send_body_guarded by (simpl; lia).
  simpl. rewrite Hs, Hnr. by destruct b.
Qed.

(** C7: when the bot call fails with a network error that is not a
    [BadRequest], [send] logs the warning that names it, adds one to the
    counter, sleeps 1, and hands over to [send] again on the same unit,
    whatever [send] does there; the run as a whole returns, after the
    warning of the guard for a unit not to be retried. *)
Theorem send_NetworkError chat_id w w1 (b : bool) (e : TelegramError) :
  retries (self w) = 0%nat ->
  no_retry (self w) = Some b ->
  is_NetworkError e = true -> is_BadRequest e = false ->
  _send get_url to_wire chat_id w = Some (Raised (Telegram e), w1) ->
  exists w2,
    (forall again : Py Medium unit,
        send_body get_url to_wire again chat_id w = again w2)
    /\ retries (self w2) = S (retries (self w))
    /\ trace w2 = trace w1 ++ [Warning (msg_network (message e)); Sleep 1]
    /\ bot w2 = bot w1
    /\ (cls (self w2), text (self w2), media (self w2), parse_mode (self w2),
        no_retry (self w2))
       = (cls (self w), text (self w), media (self w), parse_mode (self w),
          no_retry (self w))
    /\ (forall fuel,
          send get_url to_wire (S (S fuel)) chat_id w
          = Some (Returned tt,
                  if b then logged w2 [Warning msg_dropped_no_retry] else w2)).
Proof.
  intros Hr Hnr Hne Hbr Hrun.
  destruct (_send_raises_telegram chat_id w w1 _ Hrun) as (Hs & Ho & _).
  set (w2 := logged (retried w1) [Warning (msg_network (message e)); Sleep 1]).
  assert (Hbody : forall again : Py Medium unit,
             send_body get_url to_wire again chat_id w = again w2).
  { intros again. rewrite (send_body_first again chat_id w b Hr Hnr).
    unfold try_except. rewrite Hrun. by apply handler_NetworkError. }
  exists w2. split; [exact Hbody|].
  split; [by simpl; rewrite Hs|]. split; [done|]. split; [done|].
  split; [by simpl; rewrite Hs|].
  intros fuel.
  change (send get_url to_wire (S (S fuel)) chat_id w)
    with (send_body get_url to_wire (send get_url to_wire (S fuel) chat_id)
            chat_id w).
  rewrite Hbody. simpl send. rewrite send_body_guarded by (simpl; lia).
  simpl. rewrite Hs, Hnr. by destruct b.
Qed.

(** C8: [_send] of a media group with the media [m :: ms] makes one bot
    call, [send_media_group], whose items are the wire items of the media in
    their order; the first carries the text of the unit as caption and its
    parse mode, every other item is as [telegramize] built it, so with wire
    items built without a caption none but the first carries one. *)
Theorem media_group_caption_on_first chat_id w (m : Medium) ms :
  cls (self w) = MediaGroupMsg ->
  media (self w) = Media (m :: ms) ->
  Forall (fun x => caption (to_wire x) = None) ms ->
  exists r w' items,
    _send get_url to_wire chat_id w = Some (r, w')
    /\ trace w' = trace w ++
         [ReadAcquire; Transport (send_media_group chat_id items); ReadRelease]
    /\ items = set_parse_mode (parse_mode (self w))
                 (set_caption (text (self w)) (to_wire m))
               :: (to_wire <$> ms)
    /\ (caption <$> head items) = Some (text (self w))
    /\ (im_parse_mode <$> head items) = Some (parse_mode (self w))
    /\ Forall (fun i => caption i = None) (tail items).
Proof.
  intros Hcls Hmedia Hcap.
  unfold _send, bind at 1, get. rewrite Hcls.
  unfold read_locked, finally, bind at 1. unfold emit at 1.
  edestruct (media_group_send_run chat_id) as (w' & Hrun & _ & _ & _ & Ht);
    [|rewrite Hrun]; [exact Hmedia|].
  unfold emit. simpl in *. eexists _, _, _. split; [reflexivity|]. simpl.
  rewrite Ht, <- !app_assoc. simpl. repeat split.
  by apply Forall_fmap.
Qed.

(** C9: [send] ends on every world and for every script of the bot: two
    levels of activation are enough, and more fuel changes nothing.  An
    activation hands over to the re-invocation only on worlds whose counter
    is at least 1 (so two candidates for the re-invocation that agree on
    those worlds give the same activation), and on such a world an
    activation ends without re-invoking and without a bot call. *)
Theorem send_terminates (fuel : nat) chat_id w :
  (exists r w', send get_url to_wire 2 chat_id w = Some (r, w')
               /\ send get_url to_wire (S (S fuel)) chat_id w = Some (r, w'))
  /\ (forall again again' : Py Medium unit,
        (forall w2, (1 <= retries (self w2))%nat -> again w2 = again' w2) ->
        send_body get_url to_wire again chat_id w
        = send_body get_url to_wire again' chat_id w)
  /\ ((1 <= retries (self w))%nat ->
      exists r w',
        (forall again, send_body get_url to_wire again chat_id w = Some (r, w'))
        /\ attempts (trace w') = attempts (trace w)).
Proof.
  split; [|split].
  - rewrite (send_fuel_irrelevant fuel).
    change (send get_url to_wire 2 chat_id w)
      with (send_body get_url to_wire (send get_url to_wire 1 chat_id) chat_id w).
    destruct (send_body_cases (send get_url to_wire 1 chat_id) chat_id w)
      as [(r & w' & tr & Hrun & _)|(w2 & tr & Hrun & _ & Hr2 & _)].
    + exists r, w'. by rewrite Hrun.
    + rewrite Hrun. simpl. rewrite send_body_guarded by lia.
      destruct (no_retry (self w2)) as [[|]|]; by eexists _, _.
  - intros again again' Hagree.
    destruct (send_body_cases again chat_id w)
      as [(r & w' & tr & Hrun & _)|(w2 & tr & Hrun & _ & Hr2 & _)].
    + by rewrite !Hrun.
    + rewrite !Hrun. apply Hagree. lia.
  - intros Hge.
    destruct (send_counted_unit_guard chat_id w Hge) as (r & w' & Hrun & Hatt & _).
    by exists r, w'.
Qed.

(** Every bot call [_send] makes carries the parse mode of the unit. *)
Lemma _send_passes_parse_mode chat_id w :
  exists r w' tr,
    _send get_url to_wire chat_id w = Some (r, w')
    /\ trace w' = trace w ++ tr
    /\ Forall (fun ev => match ev with
                         | Transport c => call_parse_mode c = parse_mode (self w)
                         | _ => True
                         end) tr.
Proof.
  unfold _send, bind at 1, get.
  destruct (cls (self w)) eqn:Hcls.
  - exists (Returned tt), w, []. unfold ret. by rewrite app_nil_r.
  - rewrite read_locked_call_bot. eexists _, _, _. split; [reflexivity|].
    split; [reflexivity|]. by repeat constructor.
  - destruct (media (self w)) as [|m|ms] eqn:Hmedia.
    all: py_unfold; rewrite Hmedia; simpl.
    2: rewrite call_bot_run; unfold answered; simpl.
    all: eexists _, _, _; (split; [reflexivity|]); simpl;
      rewrite <- ?app_assoc; (split; [reflexivity|]); by repeat constructor.
  - destruct (media (self w)) as [|m|ms] eqn:Hmedia.
    all: py_unfold; rewrite Hmedia; simpl.
    2: rewrite call_bot_run; unfold answered; simpl.
    all: eexists _, _, _; (split; [reflexivity|]); simpl;
      rewrite <- ?app_assoc; (split; [reflexivity|]); by repeat constructor.
  - destruct (media (self w)) as [|m|ms] eqn:Hmedia.
    all: py_unfold; rewrite Hmedia; simpl.
    2: rewrite call_bot_run; unfold answered; simpl.
    all: eexists _, _, _; (split; [reflexivity|]); simpl;
      rewrite <- ?app_assoc; (split; [reflexivity|]); by repeat constructor.
  - unfold read_locked, finally, bind at 1. unfold emit at 1.
    set (w0 := {| self := self w; bot := bot w; lock_owner := lock_owner w;
                  heap := heap w; trace := trace w ++ [ReadAcquire] |}).
    destruct (media (self w)) as [|m|[|m ms]] eqn:Hmedia.
    4: { destruct (media_group_send_run chat_id w0 m ms Hmedia)
           as (w' & Hrun & Hs & Hb & Ho & Ht).
         rewrite Hrun. unfold emit. simpl.
         eexists _, _, _. split; [reflexivity|]. simpl. rewrite Ht. simpl.
         rewrite <- !app_assoc. split; [reflexivity|]. by repeat constructor. }
    all: py_unfold; rewrite Hmedia; simpl.
    all: eexists _, _, _; (split; [reflexivity|]); simpl;
      rewrite <- ?app_assoc; (split; [reflexivity|]); by repeat constructor.
Qed.

(** [_send] of a unit with one medium: one call of the class's kind, under
    the read lock, with the URL of the medium, the text as caption and the
    parse mode of the unit. *)
Lemma _send_single_medium chat_id w (m : Medium) :
  media (self w) = OneMedium m ->
  forall (k : MsgClass) (call : BotCall),
    (k, call) ∈ [(PhotoMsg, send_photo chat_id (get_url m) (text (self w))
                              (parse_mode (self w)));
                 (VideoMsg, send_video chat_id (get_url m) (text (self w))
                              (parse_mode (self w)));
                 (AnimationMsg, send_animation chat_id (get_url m)
                                  (text (self w)) (parse_mode (self w)))] ->
    cls (self w) = k ->
    _send get_url to_wire chat_id w
    = Some (answer w, answered w [ReadAcquire; Transport call; ReadRelease]).
Proof.
  intros Hm k call Hin Hcls.
  rewrite !elem_of_cons, elem_of_nil in Hin.
  unfold _send, bind at 1, get. rewrite Hcls.
  destruct Hin as [[= -> ->]|[[= -> ->]|[[= -> ->]|[]]]].
  all: py_unfold; rewrite Hm; simpl; rewrite call_bot_run;
    unfold answer, answered; simpl; by rewrite <- !app_assoc.
Qed.

(** C10: a unit built with the parse mode left out has the parse mode
    ['HTML'], and every bot call [_send] makes for it, whatever its class,
    carries ['HTML'] (on the first item for a media group).  Each class
    with its media in place does make its call, and with that parse mode:
    [send_message] for a text unit, [send_photo], [send_video] and
    [send_animation] for a unit with one medium, [send_media_group] for a
    media group with the media [m :: ms]. *)
Theorem default_parse_mode_HTML chat_id (c : MsgClass)
    (txt : option (option string)) (med : option (MediaArg Medium))
    (script : list (option TelegramError)) (o : option Owner)
    (h : gmap positive InputMedia) (tr : list Event)
    (m : Medium) (ms : list Medium) :
  let html := Some "HTML"%string in
  let fresh_unit k md := mkWorld (__init__ k txt md None) script o h tr in
  let calls k md call :=
    exists r w',
      _send get_url to_wire chat_id (fresh_unit k md) = Some (r, w')
      /\ trace w' = tr ++ [ReadAcquire; Transport call; ReadRelease] in
  parse_mode (__init__ c txt med None) = html
  /\ (exists r w' tr',
        _send get_url to_wire chat_id (fresh_unit c med) = Some (r, w')
        /\ trace w' = tr ++ tr'
        /\ Forall (fun ev => match ev with
                             | Transport call => call_parse_mode call = html
                             | _ => True
                             end) tr')
  /\ calls TextMsg med (send_message chat_id (default None txt) html true)
  /\ calls PhotoMsg (Some (OneMedium m))
       (send_photo chat_id (get_url m) (default None txt) html)
  /\ calls VideoMsg (Some (OneMedium m))
       (send_video chat_id (get_url m) (default None txt) html)
  /\ calls AnimationMsg (Some (OneMedium m))
       (send_animation chat_id (get_url m) (default None txt) html)
  /\ calls MediaGroupMsg (Some (Media (m :: ms)))
       (send_media_group chat_id
          (set_parse_mode html (set_caption (default None txt) (to_wire m))
           :: (to_wire <$> ms))).
Proof.
  intros html fresh_unit calls. subst calls fresh_unit html. cbv beta.
  split; [done|]. split.
  { apply (_send_passes_parse_mode chat_id
             (mkWorld (__init__ c txt med None) script o h tr)). }
  split.
  { unfold _send, bind at 1, get. simpl. rewrite read_locked_call_bot.
    by eexists _, _. }
  split.
  { eexists _, _. split;
      [eapply (_send_single_medium chat_id
                 (mkWorld (__init__ PhotoMsg txt (Some (OneMedium m)) None)
                    script o h tr) m eq_refl PhotoMsg);
         [rewrite !elem_of_cons; by left|reflexivity]
      |reflexivity]. }
  split.
  { eexists _, _. split;
      [eapply (_send_single_medium chat_id
                 (mkWorld (__init__ VideoMsg txt (Some (OneMedium m)) None)
                    script o h tr) m eq_refl VideoMsg);
         [rewrite !elem_of_cons; right; by left|reflexivity]
      |reflexivity]. }
  split.
  { eexists _, _. split;
      [eapply (_send_single_medium chat_id
                 (mkWorld (__init__ AnimationMsg txt (Some (OneMedium m)) None)
                    script o h tr) m eq_refl AnimationMsg);
         [rewrite !elem_of_cons; right; right; by left|reflexivity]
      |reflexivity]. }
  unfold _send, bind at 1, get. simpl.
  unfold read_locked, finally, bind at 1. unfold emit at 1.
  edestruct (media_group_send_run chat_id) as (w' & Hrun & _ & _ & _ & Ht);
    [|rewrite Hrun]; [reflexivity|].
  unfold emit. simpl in *. eexists _, _. split; [reflexivity|]. simpl.
  by rewrite Ht, <- !app_assoc.
Qed.

End facts.

(** ** The statements at the sample collaborator *)


Lemma send_BadRequest_witness :
  retries (self Sample.w_bad) = 0%nat
  /\ no_retry (self Sample.w_bad) = Some true
  /\ _send Sample.url Sample.wire Sample.chat Sample.w_bad
     = Some (Raised (Telegram (BadRequest "bad")),
             answered Sample.w_bad Sample.text_attempt)
  /\ exists r w',
       send Sample.url Sample.wire 1 Sample.chat Sample.w_bad = Some (r, w')
       /\ r = Returned tt
       /\ trace w' = trace (answered Sample.w_bad Sample.text_attempt) ++
            [WarningExc msg_bad_request (Telegram (BadRequest "bad"))]
       /\ retries (self w') = retries (self Sample.w_bad)
       /\ attempts (trace w') = S (attempts (trace Sample.w_bad)).
Proof.
  split; [reflexivity|]. split; [reflexivity|]. split; [reflexivity|].
  apply (send_BadRequest Sample.url Sample.wire 0 Sample.chat Sample.w_bad
           (answered Sample.w_bad Sample.text_attempt) true "bad");
    reflexivity.
Defined.

Lemma send_RetryAfter_cooldown_witness :
  retries (self Sample.w_flood) = 0%nat
  /\ no_retry (self Sample.w_flood) = Some false
  /\ _send Sample.url Sample.wire Sample.chat Sample.w_flood
     = Some (Raised (Telegram (RetryAfter "flood" 5)),
             answered Sample.w_flood Sample.text_attempt)
  /\ (flow_holds (trace Sample.w_flood) = (0%nat, false)
      /\ 0 <= 5 + 1 <= sleep_max)
  /\ exists w2,
       (forall again : Py string unit,
           send_body Sample.url Sample.wire again Sample.chat Sample.w_flood
           = again w2)
       /\ retries (self w2) = 1%nat
       /\ trace w2 = Sample.text_attempt ++
            [Warning "flood"; WriteAcquire; Sleep 6; WriteRelease]
       /\ bot w2 = [None]
       /\ (forall fuel,
             send Sample.url Sample.wire (S (S fuel)) Sample.chat Sample.w_flood
             = Some (Returned tt, w2)).
Proof.
  split; [reflexivity|]. split; [reflexivity|]. split; [reflexivity|].
  split; [split; [reflexivity|vm_compute; split; discriminate]|].
  apply (send_RetryAfter_cooldown Sample.url Sample.wire Sample.chat
           Sample.w_flood (answered Sample.w_flood Sample.text_attempt)
           false "flood" 5);
    [reflexivity|reflexivity|reflexivity|].
  right. split; [reflexivity|vm_compute; split; discriminate].
Defined.

(** C6, as the claim has it, fails twice.  With another flow as the writer
    of the lock, this flow holds nothing of it, and yet [send] takes no
    lock and does not sleep before it gives the unit up.  And with a
    [retry_after] of -2 the sleep of -1 is refused: [send] raises
    [ValueError] out of the write lock and never slept. *)
Lemma cooldown_not_by_this_flow :
  (flow_holds (trace Cases.w_foreign_writer) = (0%nat, false)
   /\ exists w',
        send Sample.url Sample.wire 2 Sample.chat Cases.w_foreign_writer
        = Some (Returned tt, w')
        /\ trace w' = Sample.text_attempt ++ [Warning "flood"])
  /\ (flow_holds (trace Cases.w_negative) = (0%nat, false)
      /\ lock_owner Cases.w_negative = None
      /\ exists w',
           send Sample.url Sample.wire 2 Sample.chat Cases.w_negative
           = Some (Raised ValueError, w')
           /\ trace w' = Sample.text_attempt ++
                [Warning "flood"; WriteAcquire; WriteRelease]).
Proof.
  split.
  - split; [reflexivity|]. eexists. split; reflexivity.
  - split; [reflexivity|]. split; [reflexivity|].
    eexists. split; reflexivity.
Qed.

Lemma send_NetworkError_witness :
  retries (self Sample.w_timeout) = 0%nat
  /\ no_retry (self Sample.w_timeout) = Some false
  /\ is_NetworkError (TimedOut "late") = true
  /\ is_BadRequest (TimedOut "late") = false
  /\ _send Sample.url Sample.wire Sample.chat Sample.w_timeout
     = Some (Raised (Telegram (TimedOut "late")),
             answered Sample.w_timeout Sample.text_attempt)
  /\ exists w2,
       (forall again : Py string unit,
           send_body Sample.url Sample.wire again Sample.chat Sample.w_timeout
           = again w2)
       /\ retries (self w2) = 1%nat
       /\ trace w2 = Sample.text_attempt ++
            [Warning (msg_network "late"); Sleep 1]
       /\ bot w2 = [None]
       /\ (cls (self w2), text (self w2), media (self w2),
           parse_mode (self w2), no_retry (self w2))
          = (cls (self Sample.w_timeout), text (self Sample.w_timeout),
             media (self Sample.w_timeout), parse_mode (self Sample.w_timeout),
             no_retry (self Sample.w_timeout))
       /\ (forall fuel,
             send Sample.url Sample.wire (S (S fuel)) Sample.chat
               Sample.w_timeout
             = Some (Returned tt, w2)).
Proof.
  do 5 (split; [reflexivity|]).
  apply (send_NetworkError Sample.url Sample.wire Sample.chat Sample.w_timeout
           (answered Sample.w_timeout Sample.text_attempt) false
           (TimedOut "late"));
    reflexivity.
Defined.

Lemma media_group_caption_on_first_witness :
  cls (self Sample.w_album) = MediaGroupMsg
  /\ media (self Sample.w_album) = Media ["a"; "b"; "c"]%string
  /\ Forall (fun x => caption (Sample.wire x) = None) ["b"; "c"]%string
  /\ exists r w' items,
       _send Sample.url Sample.wire Sample.chat Sample.w_album = Some (r, w')
       /\ trace w' = trace Sample.w_album ++
            [ReadAcquire; Transport (send_media_group Sample.chat items);
             ReadRelease]
       /\ items = [mkInputMedia "a" (Some "cap"%string) (Some "HTML"%string);
                   mkInputMedia "b" None None; mkInputMedia "c" None None]
       /\ (caption <$> head items) = Some (Some "cap"%string)
       /\ (im_parse_mode <$> head items) = Some (Some "HTML"%string)
       /\ Forall (fun i => caption i = None) (tail items).
Proof.
  split; [reflexivity|]. split; [reflexivity|].
  split; [by repeat constructor|].
  apply (media_group_caption_on_first Sample.url Sample.wire Sample.chat
           Sample.w_album "a"%string ["b"; "c"]%string);
    [reflexivity|reflexivity|by repeat constructor].
Defined.

Lemma send_terminates_witness :
  (1 <= retries (self Sample.w_spent))%nat
  /\ exists r w',
       (forall again,
           send_body Sample.url Sample.wire again Sample.chat Sample.w_spent
           = Some (r, w'))
       /\ attempts (trace w') = attempts (trace Sample.w_spent).
Proof.
  split; [simpl; lia|].
  apply (send_terminates Sample.url Sample.wire 0 Sample.chat Sample.w_spent).
  simpl; lia.
Defined.

(** ** The whole of a run of [send] *)

Section runs.

Context {Medium : Type}.
Variable get_url : Medium -> string.
Variable to_wire : Medium -> InputMedia.

Implicit Types (w : World Medium) (chat_id : ChatId).

Ltac py_steps :=
  cbv [read_locked write_lock finally media_get_url media_group_send
       get_no_retry incr_retries setattr telegramize try_except
       map_telegramize bind emit get set_self set_heap raise ret];
  simpl.

Ltac py_steps_in H :=
  cbv [read_locked write_lock finally media_get_url media_group_send
       get_no_retry incr_retries setattr telegramize try_except
       bind emit get set_self set_heap raise ret] in H;
  simpl in H.

(** The three ways of [_send]: the base class does nothing at all; a class
    whose arguments cannot be built takes and leaves the read lock around an
    error of Python; otherwise one bot call is made under the read lock. *)
Lemma _send_shape chat_id w :
  exists r w1,
    _send get_url to_wire chat_id w = Some (r, w1)
    /\ self w1 = self w /\ lock_owner w1 = lock_owner w
    /\ ((w1 = w /\ r = Returned tt)
        \/ (trace w1 = trace w ++ [ReadAcquire; ReadRelease]
            /\ bot w1 = bot w
            /\ (r = Raised AttributeError \/ r = Raised TypeError
                \/ r = Raised IndexError))
        \/ (exists c,
              trace w1 = trace w ++ [ReadAcquire; Transport c; ReadRelease]
              /\ bot w1 = tail (bot w) /\ r = answer w)).
Proof.
  unfold _send, bind at 1, get.
  destruct (cls (self w)) eqn:Hcls.
  - exists (Returned tt), w. unfold ret. repeat split. by left.
  - rewrite read_locked_call_bot. eexists _, _. split; [reflexivity|].
    repeat split. right; right. eexists. by repeat split.
  - destruct (media (self w)) as [|m|ms] eqn:Hmedia.
    all: py_steps; rewrite Hmedia; simpl.
    2: { rewrite call_bot_run. unfold answer, answered; simpl.
         eexists _, _. split; [reflexivity|]. repeat split.
         right; right. eexists. rewrite <- !app_assoc. by repeat split. }
    all: eexists _, _; (split; [reflexivity|]); repeat split; right; left;
      simpl; rewrite <- app_assoc; repeat split; by left.
  - destruct (media (self w)) as [|m|ms] eqn:Hmedia.
    all: py_steps; rewrite Hmedia; simpl.
    2: { rewrite call_bot_run. unfold answer, answered; simpl.
         eexists _, _. split; [reflexivity|]. repeat split.
         right; right. eexists. rewrite <- !app_assoc. by repeat split. }
    all: eexists _, _; (split; [reflexivity|]); repeat split; right; left;
      simpl; rewrite <- app_assoc; repeat split; by left.
  - destruct (media (self w)) as [|m|ms] eqn:Hmedia.
    all: py_steps; rewrite Hmedia; simpl.
    2: { rewrite call_bot_run. unfold answer, answered; simpl.
         eexists _, _. split; [reflexivity|]. repeat split.
         right; right. eexists. rewrite <- !app_assoc. by repeat split. }
    all: eexists _, _; (split; [reflexivity|]); repeat split; right; left;
      simpl; rewrite <- app_assoc; repeat split; by left.
  - unfold read_locked, finally, bind at 1. unfold emit at 1.
    set (w0 := {| self := self w; bot := bot w; lock_owner := lock_owner w;
                  heap := heap w; trace := trace w ++ [ReadAcquire] |}).
    destruct (media (self w)) as [|m|[|m ms]] eqn:Hmedia.
    4: { destruct (media_group_send_run get_url to_wire chat_id w0 m ms Hmedia)
           as (w' & Hrun & Hs & Hb & Ho & Ht).
         rewrite Hrun. unfold emit. simpl.
         eexists _, _. split; [reflexivity|]. simpl. repeat split; [done..|].
         right; right. eexists. rewrite Ht. simpl. rewrite <- !app_assoc.
         by repeat split. }
    all: py_steps; rewrite Hmedia; simpl.
    all: eexists _, _; (split; [reflexivity|]); repeat split; right; left;
      simpl; rewrite <- app_assoc; repeat split; auto.
Qed.

(** A first activation on a unit with [no_retry] bound ends as [settle]
    says, from what [_send] gave; the re-invocation after a failure that is
    counted is decided by the guard. *)
Lemma send_settles (fuel : nat) chat_id w w1 (b : bool) (r1 : Res unit) :
  retries (self w) = 0%nat ->
  no_retry (self w) = Some b ->
  _send get_url to_wire chat_id w = Some (r1, w1) ->
  send get_url to_wire (S (S fuel)) chat_id w = Some (settle b r1 w1).
Proof.
  intros Hr Hnr Hrun.
  assert (Hs : self w1 = self w).
  { destruct (_send_shape chat_id w) as (r & w' & Hrun' & Hs & _).
    rewrite Hrun in Hrun'. by injection Hrun' as <- <-. }
  change (send get_url to_wire (S (S fuel)) chat_id w)
    with (send_body get_url to_wire (send get_url to_wire (S fuel) chat_id)
            chat_id w).
  rewrite (send_body_first get_url to_wire _ chat_id w b Hr Hnr).
  unfold try_except. rewrite Hrun.
  assert (Hnr1 : no_retry (self w1) = Some b) by by rewrite Hs.
  destruct r1 as [[]|e]; [done|].
  destruct e as [| | | | | |e]; try done.
  destruct e as [msg t|msg|msg|msg|msg].
  - rewrite handler_RetryAfter. simpl.
    destruct (fst (cooldown w1 t)) as [u|exc]; [|done].
    simpl. rewrite send_body_guarded by (simpl; lia). simpl. rewrite Hnr1.
    by destruct b.
  - rewrite (handler_BadRequest _ msg w1 b Hnr1). by destruct b.
  - rewrite handler_NetworkError by done. simpl.
    rewrite send_body_guarded by (simpl; lia). simpl. rewrite Hnr1.
    by destruct b.
  - rewrite handler_NetworkError by done. simpl.
    rewrite send_body_guarded by (simpl; lia). simpl. rewrite Hnr1.
    by destruct b.
  - done.
Qed.

Lemma lock_run_app (s0 : Held) (tr1 tr2 : list Event) :
  lock_run s0 (tr1 ++ tr2)
  = match lock_run s0 tr1 with
    | Some s1 => lock_run s1 tr2
    | None => None
    end.
Proof.
  revert s0. induction tr1 as [|ev tr1 IH]; intros s0; [done|].
  simpl. destruct (lock_step s0 ev); [apply IH|done].
Qed.

(** A cooldown that raises [OverflowError] had a sleep too long to take. *)
Lemma cooldown_OverflowError w (t : Z) :
  fst (cooldown w t) = Raised OverflowError -> sleep_max < Z.abs (t + 1).
Proof.
  unfold cooldown, sleep_result.
  repeat match goal with
         | |- context [decide ?P] => destruct (decide P)
         | |- context [is_writer ?x] => destruct (is_writer x)
         | |- context [is_reader ?x] => destruct (is_reader x)
         end; simpl; done.
Qed.

(** What a cooldown raises is never an error of the bot. *)
Lemma cooldown_not_telegram w (t : Z) (e : TelegramError) :
  fst (cooldown w t) <> Raised (Telegram e).
Proof.
  unfold cooldown, sleep_result.
  repeat match goal with
         | |- context [decide ?P] => destruct (decide P)
         | |- context [is_writer ?x] => destruct (is_writer x)
         | |- context [is_reader ?x] => destruct (is_reader x)
         end; simpl; done.
Qed.

(** What [settle] adds to the world [_send] left: no bot call, nothing
    taken from the script, the lock left as it was found, the unit touched
    in its counter only. *)
Lemma settle_shape (b : bool) (r1 : Res unit) w1 :
  exists tr,
    trace (snd (settle b r1 w1)) = trace w1 ++ tr
    /\ attempts tr = 0%nat
    /\ lock_run Free tr = Some Free
    /\ bot (snd (settle b r1 w1)) = bot w1
    /\ lock_owner (snd (settle b r1 w1)) = lock_owner w1
    /\ (cls (self (snd (settle b r1 w1))), text (self (snd (settle b r1 w1))),
        media (self (snd (settle b r1 w1))),
        parse_mode (self (snd (settle b r1 w1))),
        no_retry (self (snd (settle b r1 w1))))
       = (cls (self w1), text (self w1), media (self w1),
          parse_mode (self w1), no_retry (self w1))
    /\ (retries (self (snd (settle b r1 w1))) = retries (self w1)
        \/ retries (self (snd (settle b r1 w1))) = S (retries (self w1)))
    /\ (fst (settle b r1 w1) <> Raised OverflowError
        \/ r1 = Raised OverflowError
        \/ exists msg t, r1 = Raised (Telegram (RetryAfter msg t))
                         /\ sleep_max < Z.abs (t + 1)).
Proof.
  assert (Hnil : exists tr : list Event,
             trace w1 = trace w1 ++ tr /\ attempts tr = 0%nat
             /\ lock_run Free tr = Some Free).
  { exists []. by rewrite app_nil_r. }
  destruct r1 as [u|e].
  { destruct Hnil as (tr & ? & ? & ?). exists tr. simpl.
    repeat split; auto. }
  destruct e as [| | | | | |e].
  1-6: destruct Hnil as (tr & ? & ? & ?); exists tr; simpl;
    repeat split; auto.
  destruct e as [msg t|msg|msg|msg|msg]; simpl.
  - pose proof (cooldown_attempts w1 t) as Hatt.
    pose proof (cooldown_lock_run w1 t) as Hlock.
    pose proof (cooldown_OverflowError w1 t) as Hov.
    destruct (cooldown w1 t) as [[u|exc] evs]; simpl in *.
    + exists (Warning msg :: evs
                ++ (if b then [Warning msg_dropped_no_retry] else [])).
      destruct b; simpl; rewrite <- ?app_assoc, ?app_nil_r; simpl.
      * split; [done|].
        change (Warning msg :: evs ++ [Warning msg_dropped_no_retry])
          with ([Warning msg] ++ evs ++ [Warning msg_dropped_no_retry]).
        rewrite !attempts_app, Hatt, ?lock_run_app; simpl; rewrite ?lock_run_app, Hlock.
        repeat split; auto.
      * split; [done|].
        change (Warning msg :: evs) with ([Warning msg] ++ evs).
        rewrite !attempts_app, Hatt, ?lock_run_app; simpl; rewrite ?lock_run_app, Hlock.
        repeat split; auto.
    + exists (Warning msg :: evs). split; [done|].
      change (Warning msg :: evs) with ([Warning msg] ++ evs).
      rewrite !attempts_app, Hatt, ?lock_run_app; simpl; rewrite ?lock_run_app, Hlock.
      do 6 (split; [auto|]).
      destruct exc as [| | | | | |e];
        try (left; discriminate).
      right; right. exists msg, t. split; [done|]. by apply Hov.
  - destruct b; simpl.
    + eexists [_]. repeat split; auto.
    + destruct Hnil as (tr & ? & ? & ?). exists tr. repeat split; auto.
  - exists ([Warning (msg_network msg); Sleep 1]
              ++ (if b then [Warning msg_dropped_no_retry] else [])).
    destruct b; simpl; rewrite <- ?app_assoc; repeat split; auto.
  - exists ([Warning (msg_network msg); Sleep 1]
              ++ (if b then [Warning msg_dropped_no_retry] else [])).
    destruct b; simpl; rewrite <- ?app_assoc; repeat split; auto.
  - destruct Hnil as (tr & ? & ? & ?). exists tr. repeat split; auto.
Qed.

(** Everything a run of [send] can do to the world, on any world. *)
Lemma send_run_shape (fuel : nat) chat_id w :
  exists r w' tr,
    send get_url to_wire (S (S fuel)) chat_id w = Some (r, w')
    /\ trace w' = trace w ++ tr
    /\ ((attempts tr = 0%nat /\ bot w' = bot w)
        \/ (attempts tr = 1%nat /\ bot w' = tail (bot w)))
    /\ (r <> Raised OverflowError
        \/ exists msg t rest, bot w = Some (RetryAfter msg t) :: rest
                              /\ sleep_max < Z.abs (t + 1))
    /\ lock_owner w' = lock_owner w
    /\ (cls (self w'), text (self w'), media (self w'), parse_mode (self w'),
        no_retry (self w'))
       = (cls (self w), text (self w), media (self w), parse_mode (self w),
          no_retry (self w))
    /\ (retries (self w') = retries (self w)
        \/ (retries (self w) = 0%nat /\ retries (self w') = 1%nat))
    /\ lock_run Free tr = Some Free.
Proof.
  destruct (retries (self w)) as [|n] eqn:Hr.
  2: { change (send get_url to_wire (S (S fuel)) chat_id w)
         with (send_body get_url to_wire (send get_url to_wire (S fuel) chat_id)
                 chat_id w).
       rewrite send_body_guarded by lia.
       destruct (no_retry (self w)) as [[|]|] eqn:Hnr.
       - eexists _, _, [_]. split; [reflexivity|]. simpl.
         rewrite Hr, Hnr. repeat split; auto; try (left; discriminate).
       - exists (Returned tt), w, []. rewrite app_nil_r, Hr, Hnr.
         repeat split; auto; try (left; discriminate).
       - exists (Raised AttributeError), w, []. rewrite app_nil_r, Hr, Hnr.
         repeat split; auto; try (left; discriminate). }
  destruct (no_retry (self w)) as [b|] eqn:Hnr.
  2: { exists (Raised AttributeError), w, []. rewrite app_nil_r, Hr, Hnr.
       split; [|repeat split; auto; try (left; discriminate)].
       change (send get_url to_wire (S (S fuel)) chat_id w)
         with (send_body get_url to_wire (send get_url to_wire (S fuel) chat_id)
                 chat_id w).
       unfold send_body. py_steps. by rewrite Hnr. }
  destruct (_send_shape chat_id w) as (r1 & w1 & Hrun & Hs & Ho & Hshape).
  rewrite (send_settles fuel chat_id w w1 b r1 Hr Hnr Hrun).
  destruct (settle_shape b r1 w1)
    as (tr2 & Ht2 & Hatt2 & Hlock2 & Hb2 & Ho2 & Hf2 & Hr2 & Hov2).
  assert (Hfields : (cls (self (snd (settle b r1 w1))),
                     text (self (snd (settle b r1 w1))),
                     media (self (snd (settle b r1 w1))),
                     parse_mode (self (snd (settle b r1 w1))),
                     no_retry (self (snd (settle b r1 w1))))
                    = (cls (self w), text (self w), media (self w),
                       parse_mode (self w), Some b)).
  { by rewrite Hf2, Hs, Hnr. }
  assert (Hcount : retries (self (snd (settle b r1 w1))) = 0%nat
                   \/ (0%nat = 0%nat
                       /\ retries (self (snd (settle b r1 w1))) = 1%nat)).
  { rewrite Hs, Hr in Hr2. destruct Hr2; auto. }
  destruct (settle b r1 w1) as [r w'] eqn:Hsettle. simpl in *.
  destruct Hshape as [[-> ->]|[(Ht & Hb & Hr1)|(c & Ht & Hb & Hans)]].
  - exists r, w', tr2. split; [done|]. split; [done|].
    split; [left; by rewrite Hb2|].
    split; [|by rewrite Ho2].
    destruct Hov2 as [?|[?|(msg & t & ? & _)]]; [by left|done|done].
  - exists r, w', ([ReadAcquire; ReadRelease] ++ tr2).
    split; [done|]. split; [by rewrite Ht2, Ht, <- app_assoc|].
    split; [left; by rewrite attempts_app, Hatt2, Hb2|].
    split; [|split; [by rewrite Ho2|]].
    + destruct Hov2 as [?|[?|(msg & t & ? & _)]]; [by left| |].
      all: by destruct Hr1 as [->|[->| ->]].
    + split; [done|]. split; [done|]. by rewrite lock_run_app.
  - exists r, w', ([ReadAcquire; Transport c; ReadRelease] ++ tr2).
    split; [done|]. split; [by rewrite Ht2, Ht, <- app_assoc|].
    split; [right; by rewrite attempts_app, Hatt2, Hb2|].
    split; [|split; [by rewrite Ho2|]].
    + unfold answer in Hans.
      destruct Hov2 as [?|[->|(msg & t & -> & Hbig)]]; [by left| |].
      * by destruct (bot w) as [|[?|] ?].
      * right. destruct (bot w) as [|[e|] rest]; try done.
        injection Hans as <-. by exists msg, t, rest.
    + split; [done|]. split; [done|]. by rewrite lock_run_app.
Qed.

(** With a failure counted no run of [send] makes a bot call. *)
Lemma counted_no_transport chat_id w :
  (1 <= retries (self w))%nat -> no_transport get_url to_wire chat_id w.
Proof.
  intros Hge fuel r w' Hrun. destruct fuel as [|fuel]; [done|].
  simpl in Hrun. rewrite send_body_guarded in Hrun by done.
  destruct (no_retry (self w)) as [[|]|]; injection Hrun as <- <-; try done.
  simpl. rewrite attempts_app. cbv [attempts filter]. simpl. lia.
Qed.

(** X1: whatever the unit, the script of the bot and the owner of the lock,
    a run of [send] ends having made no bot call or exactly one, and it
    takes an answer from the script exactly when it made the call.  The
    [OverflowError] of the guard is never raised: a run raises
    [OverflowError] only out of the sleep of a cooldown, when the bot
    answered [RetryAfter] with a [retry_after + 1] too long for
    [time.sleep]. *)
Theorem send_one_call_at_most (fuel : nat) chat_id w :
  exists r w' tr,
    send get_url to_wire (S (S fuel)) chat_id w = Some (r, w')
    /\ trace w' = trace w ++ tr
    /\ ((attempts tr = 0%nat /\ bot w' = bot w)
        \/ (attempts tr = 1%nat /\ bot w' = tail (bot w)))
    /\ (r <> Raised OverflowError
        \/ exists msg t rest, bot w = Some (RetryAfter msg t) :: rest
                              /\ sleep_max < Z.abs (t + 1)).
Proof.
  destruct (send_run_shape fuel chat_id w)
    as (r & w' & tr & Hrun & Ht & Hcall & Hov & _).
  by exists r, w', tr.
Qed.

(** X2: [send] leaves the class, text, media, parse mode and [no_retry] of
    the unit as they were; the counter is either unchanged or has gone from
    0 to 1, so it never passes 1 on a unit that started at 0. *)
Theorem send_keeps_unit (fuel : nat) chat_id w :
  exists r w',
    send get_url to_wire (S (S fuel)) chat_id w = Some (r, w')
    /\ (cls (self w'), text (self w'), media (self w'), parse_mode (self w'),
        no_retry (self w'))
       = (cls (self w), text (self w), media (self w), parse_mode (self w),
          no_retry (self w))
    /\ (retries (self w') = retries (self w)
        \/ (retries (self w) = 0%nat /\ retries (self w') = 1%nat))
    /\ (retries (self w') <= Nat.max 1 (retries (self w)))%nat.
Proof.
  destruct (send_run_shape fuel chat_id w)
    as (r & w' & tr & Hrun & _ & _ & _ & _ & Hsame & Hcount & _).
  exists r, w'. split; [done|]. split; [done|]. split; [done|]. lia.
Qed.

(** X3: on a unit that passes the guard, whatever [_send] gives that is not
    a [RetryAfter] or a [NetworkError] of the bot ([BadRequest] and
    [TimedOut] are such) is what [send] gives: a normal return, an error of
    Python, or another error of the bot reaches the caller as it is, on the
    world [_send] left, with nothing counted and nothing re-invoked. *)
Theorem send_pass_through (fuel : nat) chat_id w w1 (b : bool) (r1 : Res unit) :
  retries (self w) = 0%nat ->
  no_retry (self w) = Some b ->
  _send get_url to_wire chat_id w = Some (r1, w1) ->
  (forall e, r1 = Raised (Telegram e) ->
             is_RetryAfter e = false /\ is_NetworkError e = false) ->
  send get_url to_wire (S fuel) chat_id w = Some (r1, w1)
  /\ self w1 = self w.
Proof.
  intros Hr Hnr Hrun Hother. split.
  - simpl. rewrite (send_body_first get_url to_wire _ chat_id w b Hr Hnr).
    unfold try_except. rewrite Hrun.
    destruct r1 as [u|e]; [done|].
    destruct e as [| | | | | |e]; try done.
    destruct (Hother e eq_refl) as [Hra Hne].
    unfold handler. rewrite Hra.
    destruct e; try discriminate. done.
  - destruct (_send_shape chat_id w) as (r & w' & Hrun' & Hs & _).
    rewrite Hrun in Hrun'. by injection Hrun' as <- <-.
Qed.

(** X4: a unit whose call is refused with [RetryAfter] carrying [t] is
    given up without a word to the caller.  When the lock's owner is
    [WRITER], or the flow holds nothing of the lock and [t + 1] is a length
    [time.sleep] takes, [send] returns normally after the cooldown (none
    under a writer), with the counter at 1 and, for a unit not to be
    retried, the warning that it was dropped; no later [send] on the unit
    calls the bot. *)
Theorem send_RetryAfter_dropped (fuel : nat) chat_id w w1 (b : bool)
    (msg : string) (t : Z) :
  retries (self w) = 0%nat ->
  no_retry (self w) = Some b ->
  _send get_url to_wire chat_id w
    = Some (Raised (Telegram (RetryAfter msg t)), w1) ->
  lock_owner w = Some WRITER
    \/ (flow_holds (trace w) = (0%nat, false) /\ 0 <= t + 1 <= sleep_max) ->
  exists w',
    send get_url to_wire (S (S fuel)) chat_id w = Some (Returned tt, w')
    /\ trace w' = trace w1 ++ Warning msg ::
         (if decide (lock_owner w = Some WRITER) then []
          else [WriteAcquire; Sleep (t + 1); WriteRelease])
         ++ (if b then [Warning msg_dropped_no_retry] else [])
    /\ retries (self w') = 1%nat
    /\ bot w' = bot w1
    /\ no_transport get_url to_wire chat_id w'.
Proof.
  intros Hr Hnr Hrun Hpre.
  destruct (_send_raises_telegram get_url to_wire chat_id w w1 _ Hrun)
    as (Hs & Ho & c & Ht).
  assert (Hcool : cooldown w1 t
                  = (Returned tt,
                     if decide (lock_owner w = Some WRITER) then []
                     else [WriteAcquire; Sleep (t + 1); WriteRelease])).
  { rewrite (cooldown_after_attempt w w1 c t Ho Ht).
    destruct (decide (lock_owner w = Some WRITER)) as [Hw|Hw].
    - by apply cooldown_skipped.
    - destruct Hpre as [|[Hh Hrange]]; [done|]. by apply cooldown_taken. }
  rewrite (send_settles fuel chat_id w w1 b _ Hr Hnr Hrun). simpl.
  rewrite Hcool. simpl.
  eexists. split; [reflexivity|].
  destruct b, (decide (lock_owner w = Some WRITER)); simpl;
    rewrite Hs, Hr, <- ?app_assoc; simpl.
  all: split; [reflexivity|]; split; [reflexivity|]; split; [reflexivity|].
  all: apply counted_no_transport; simpl; lia.
Qed.

(** X10: a cooldown whose sleep is refused.  With the lock's owner not
    [WRITER] and the flow holding nothing of the lock, a [RetryAfter] whose
    [t + 1] is negative makes [send] raise [ValueError], one too long for
    [time.sleep] makes it raise [OverflowError]: the write lock was taken
    and is left again, no sleep was made, nothing is re-invoked (fuel 1 is
    enough), and the counter stays at 1, so no later [send] on the unit
    calls the bot. *)
Theorem send_RetryAfter_sleep_refused (fuel : nat) chat_id w w1 (b : bool)
    (msg : string) (t : Z) :
  retries (self w) = 0%nat ->
  no_retry (self w) = Some b ->
  _send get_url to_wire chat_id w
    = Some (Raised (Telegram (RetryAfter msg t)), w1) ->
  lock_owner w <> Some WRITER ->
  flow_holds (trace w) = (0%nat, false) ->
  t + 1 < 0 \/ sleep_max < t + 1 ->
  exists w',
    send get_url to_wire (S fuel) chat_id w
    = Some (Raised (if decide (sleep_max < Z.abs (t + 1))
                    then OverflowError else ValueError), w')
    /\ trace w' = trace w1 ++ [Warning msg; WriteAcquire; WriteRelease]
    /\ retries (self w') = 1%nat
    /\ bot w' = bot w1
    /\ no_transport get_url to_wire chat_id w'.
Proof.
  intros Hr Hnr Hrun Hown Hholds Hbad.
  destruct (_send_raises_telegram get_url to_wire chat_id w w1 _ Hrun)
    as (Hs & Ho & c & Ht).
  assert (Hcool : cooldown w1 t
                  = (Raised (if decide (sleep_max < Z.abs (t + 1))
                             then OverflowError else ValueError),
                     [WriteAcquire; WriteRelease])).
  { rewrite (cooldown_after_attempt w w1 c t Ho Ht).
    unfold cooldown, is_writer, is_reader, sleep_result. rewrite Hholds.
    simpl. rewrite decide_False by done.
    destruct (decide (sleep_max < Z.abs (t + 1))); [done|].
    rewrite decide_True by lia. done. }
  simpl send. rewrite (send_body_first get_url to_wire _ chat_id w b Hr Hnr).
  unfold try_except. rewrite Hrun, handler_RetryAfter, Hcool. simpl.
  eexists. split; [reflexivity|]. simpl. rewrite Hs, Hr.
  split; [reflexivity|]. split; [reflexivity|]. split; [reflexivity|].
  apply counted_no_transport; simpl; lia.
Qed.

(** X11: a rate limit met by a flow that is itself a reader of the lock
    (and not its writer), with the lock's owner not [WRITER]: the write
    lock is refused, [send] raises [RuntimeError] right after the warning,
    having neither taken the write lock nor slept; the counter is at 1. *)
Theorem send_RetryAfter_reader_refused (fuel : nat) chat_id w w1 (b : bool)
    (msg : string) (t : Z) :
  retries (self w) = 0%nat ->
  no_retry (self w) = Some b ->
  _send get_url to_wire chat_id w
    = Some (Raised (Telegram (RetryAfter msg t)), w1) ->
  lock_owner w <> Some WRITER ->
  is_reader (trace w) = true -> is_writer (trace w) = false ->
  exists w',
    send get_url to_wire (S fuel) chat_id w = Some (Raised RuntimeError, w')
    /\ trace w' = trace w1 ++ [Warning msg]
    /\ retries (self w') = 1%nat
    /\ bot w' = bot w1.
Proof.
  intros Hr Hnr Hrun Hown Hrd Hwr.
  destruct (_send_raises_telegram get_url to_wire chat_id w w1 _ Hrun)
    as (Hs & Ho & c & Ht).
  assert (Hcool : cooldown w1 t = (Raised RuntimeError, [])).
  { rewrite (cooldown_after_attempt w w1 c t Ho Ht).
    unfold cooldown. rewrite decide_False by done. by rewrite Hwr, Hrd. }
  simpl send. rewrite (send_body_first get_url to_wire _ chat_id w b Hr Hnr).
  unfold try_except. rewrite Hrun, handler_RetryAfter, Hcool. simpl.
  eexists. split; [reflexivity|]. simpl. by rewrite Hs, Hr.
Qed.

(** X5: a unit whose call fails with [NetworkError] or [TimedOut] is given
    up the same way: [send] logs the retry, sleeps 1, and returns normally
    with the counter at 1 (after the warning that it was dropped, for a unit
    not to be retried); no second call is made, then or by a later [send]. *)
Theorem send_NetworkError_dropped (fuel : nat) chat_id w w1 (b : bool)
    (e : TelegramError) :
  retries (self w) = 0%nat ->
  no_retry (self w) = Some b ->
  is_NetworkError e = true -> is_BadRequest e = false ->
  _send get_url to_wire chat_id w = Some (Raised (Telegram e), w1) ->
  exists w',
    send get_url to_wire (S (S fuel)) chat_id w = Some (Returned tt, w')
    /\ trace w' = trace w1 ++ [Warning (msg_network (message e)); Sleep 1]
         ++ (if b then [Warning msg_dropped_no_retry] else [])
    /\ attempts (trace w') = S (attempts (trace w))
    /\ retries (self w') = 1%nat
    /\ bot w' = bot w1
    /\ no_transport get_url to_wire chat_id w'.
Proof.
  intros Hr Hnr Hne Hbr Hrun.
  destruct (_send_raises_telegram get_url to_wire chat_id w w1 _ Hrun)
    as (Hs & Ho & c & Ht).
  rewrite (send_settles fuel chat_id w w1 b _ Hr Hnr Hrun).
  destruct e as [| |msg|msg|]; try discriminate; simpl.
  all: eexists; (split; [reflexivity|]).
  all: destruct b; simpl; rewrite Hs, Hr, <- ?app_assoc; simpl.
  all: split; [reflexivity|].
  all: split;
    [rewrite Ht, !attempts_app; cbv [attempts filter]; simpl; lia|].
  all: split; [reflexivity|]; split; [reflexivity|].
  all: apply counted_no_transport; simpl; lia.
Qed.

(** X6: the errors of the bot that can leave [send].  If [send] raises an
    error of the bot, it is the answer to the one call this run made, on a
    unit with nothing counted before or after; it is never a [RetryAfter],
    of the network errors only a [BadRequest], and a [BadRequest] only from
    a unit whose [no_retry] is false. *)
Theorem send_escaping_errors (fuel : nat) chat_id w w' (e : TelegramError) :
  send get_url to_wire (S (S fuel)) chat_id w = Some (Raised (Telegram e), w') ->
  is_RetryAfter e = false
  /\ (is_NetworkError e = true -> is_BadRequest e = true)
  /\ (is_BadRequest e = true -> no_retry (self w) = Some false)
  /\ bot w = Some e :: bot w'
  /\ retries (self w) = 0%nat /\ retries (self w') = 0%nat.
Proof.
  intros Hsend.
  destruct (retries (self w)) as [|n] eqn:Hr.
  2: { change (send get_url to_wire (S (S fuel)) chat_id w)
         with (send_body get_url to_wire (send get_url to_wire (S fuel) chat_id)
                 chat_id w) in Hsend.
       rewrite send_body_guarded in Hsend by lia.
       by destruct (no_retry (self w)) as [[|]|]. }
  destruct (no_retry (self w)) as [b|] eqn:Hnr.
  2: { change (send get_url to_wire (S (S fuel)) chat_id w)
         with (send_body get_url to_wire (send get_url to_wire (S fuel) chat_id)
                 chat_id w) in Hsend.
       unfold send_body in Hsend. py_steps_in Hsend.
       rewrite Hnr in Hsend. discriminate. }
  destruct (_send_shape chat_id w) as (r1 & w1 & Hrun & Hs & Ho & Hshape).
  rewrite (send_settles fuel chat_id w w1 b r1 Hr Hnr Hrun) in Hsend.
  destruct Hshape as [[-> ->]|[(Ht & Hb & Hr1)|(c & Ht & Hb & Hans)]].
  - discriminate.
  - by destruct Hr1 as [->|[->| ->]].
  - unfold answer in Hans.
    destruct (bot w) as [|[e1|] rest] eqn:Hbot; subst r1; try discriminate.
    simpl in Hb.
    destruct e1 as [msg t|msg|msg|msg|msg]; simpl in Hsend.
    + pose proof (cooldown_not_telegram w1 t e) as Hnt.
      destruct (fst (cooldown w1 t)) as [u|exc]; [discriminate|].
      injection Hsend as -> _. by destruct Hnt.
    + destruct b; [discriminate|]. injection Hsend as <- <-.
      rewrite Hb, Hs, Hr. by repeat split.
    + discriminate.
    + discriminate.
    + injection Hsend as <- <-. rewrite Hb, Hs, Hr. by repeat split.
Qed.

(** X7: the trace a run of [send] adds keeps the discipline of the lock:
    from holding nothing the flow ends holding nothing, also when the bot or
    the building of the arguments raises; every bot call lies inside the
    read lock, the write lock is taken only after the read lock was left,
    and the flow never sleeps while it holds the read lock. *)
Theorem send_lock_discipline (fuel : nat) chat_id w :
  exists r w' tr,
    send get_url to_wire (S (S fuel)) chat_id w = Some (r, w')
    /\ trace w' = trace w ++ tr
    /\ lock_run Free tr = Some Free.
Proof.
  destruct (send_run_shape fuel chat_id w)
    as (r & w' & tr & Hrun & Ht & _ & _ & _ & _ & _ & Hlock).
  by exists r, w', tr.
Qed.

(** X8: a photo, video or animation unit whose media is not one medium
    ([None], or a list) cannot build its call: [send] raises
    [AttributeError] to the caller, having taken and left the read lock and
    made no bot call; nothing is counted and the script of the bot is not
    touched. *)
Theorem send_single_medium_missing (fuel : nat) chat_id w (b : bool) :
  retries (self w) = 0%nat ->
  no_retry (self w) = Some b ->
  cls (self w) = PhotoMsg \/ cls (self w) = VideoMsg
    \/ cls (self w) = AnimationMsg ->
  (forall m, media (self w) <> OneMedium m) ->
  send get_url to_wire (S fuel) chat_id w
  = Some (Raised AttributeError, logged w [ReadAcquire; ReadRelease]).
Proof.
  intros Hr Hnr Hcls Hmedia. simpl.
  rewrite (send_body_first get_url to_wire _ chat_id w b Hr Hnr).
  unfold try_except, _send, bind at 1, get, logged.
  destruct Hcls as [->|[->| ->]].
  all: destruct (media (self w)) as [|m|ms] eqn:Hm;
    [|by destruct (Hmedia m)|].
  all: py_steps; rewrite Hm; simpl; by rewrite <- app_assoc.
Qed.

(** X9: a media group unit with no media at all, or with an empty sequence
    of media, cannot build its call: [send] raises [TypeError] for [None]
    and [IndexError] for the empty sequence, having taken and left the read
    lock and made no bot call; nothing is counted, no item is built and the
    script of the bot is not touched. *)
Theorem send_media_group_unusable (fuel : nat) chat_id w (b : bool)
    (exc : Exception) :
  retries (self w) = 0%nat ->
  no_retry (self w) = Some b ->
  cls (self w) = MediaGroupMsg ->
  (media (self w) = NoMedia /\ exc = TypeError)
    \/ (media (self w) = Media [] /\ exc = IndexError) ->
  send get_url to_wire (S fuel) chat_id w
  = Some (Raised exc, logged w [ReadAcquire; ReadRelease]).
Proof.
  intros Hr Hnr Hcls Hmedia. simpl.
  rewrite (send_body_first get_url to_wire _ chat_id w b Hr Hnr).
  unfold try_except, _send, bind at 1, get, logged. rewrite Hcls.
  destruct Hmedia as [[Hm ->]|[Hm ->]].
  all: py_steps; rewrite Hm; simpl; by rewrite <- app_assoc.
Qed.






End runs.

(** ** The runs at the sample collaborator *)

Lemma send_pass_through_witness :
  retries (self Cases.w_denied) = 0%nat
  /\ no_retry (self Cases.w_denied) = Some false
  /\ _send Sample.url Sample.wire Sample.chat Cases.w_denied
     = Some (Raised (Telegram (OtherTelegramError "Forbidden")),
             answered Cases.w_denied Sample.text_attempt)
  /\ send Sample.url Sample.wire 1 Sample.chat Cases.w_denied
     = Some (Raised (Telegram (OtherTelegramError "Forbidden")),
             answered Cases.w_denied Sample.text_attempt)
  /\ self (answered Cases.w_denied Sample.text_attempt) = self Cases.w_denied.
Proof.
  split; [reflexivity|]. split; [reflexivity|]. split; [reflexivity|].
  apply (send_pass_through Sample.url Sample.wire 0 Sample.chat Cases.w_denied
           (answered Cases.w_denied Sample.text_attempt) false
           (Raised (Telegram (OtherTelegramError "Forbidden"))));
    [reflexivity|reflexivity|reflexivity|].
  intros e He. injection He as <-. split; reflexivity.
Defined.

Lemma send_RetryAfter_dropped_witness :
  retries (self Sample.w_flood) = 0%nat
  /\ no_retry (self Sample.w_flood) = Some false
  /\ _send Sample.url Sample.wire Sample.chat Sample.w_flood
     = Some (Raised (Telegram (RetryAfter "flood" 5)),
             answered Sample.w_flood Sample.text_attempt)
  /\ (flow_holds (trace Sample.w_flood) = (0%nat, false)
      /\ 0 <= 5 + 1 <= sleep_max)
  /\ exists w',
       send Sample.url Sample.wire 2 Sample.chat Sample.w_flood
       = Some (Returned tt, w')
       /\ trace w' = Sample.text_attempt ++
            [Warning "flood"; WriteAcquire; Sleep 6; WriteRelease]
       /\ retries (self w') = 1%nat
       /\ bot w' = [None]
       /\ no_transport Sample.url Sample.wire Sample.chat w'.
Proof.
  split; [reflexivity|]. split; [reflexivity|]. split; [reflexivity|].
  split; [split; [reflexivity|vm_compute; split; discriminate]|].
  apply (send_RetryAfter_dropped Sample.url Sample.wire 0 Sample.chat
           Sample.w_flood (answered Sample.w_flood Sample.text_attempt)
           false "flood" 5);
    [reflexivity|reflexivity|reflexivity|].
  right. split; [reflexivity|vm_compute; split; discriminate].
Defined.

Lemma send_RetryAfter_sleep_refused_witness :
  retries (self Cases.w_endless) = 0%nat
  /\ no_retry (self Cases.w_endless) = Some false
  /\ _send Sample.url Sample.wire Sample.chat Cases.w_endless
     = Some (Raised (Telegram (RetryAfter "flood" 10000000000)),
             answered Cases.w_endless Sample.text_attempt)
  /\ lock_owner Cases.w_endless <> Some WRITER
  /\ flow_holds (trace Cases.w_endless) = (0%nat, false)
  /\ sleep_max < 10000000000 + 1
  /\ exists w',
       send Sample.url Sample.wire 1 Sample.chat Cases.w_endless
       = Some (Raised OverflowError, w')
       /\ trace w' = Sample.text_attempt ++
            [Warning "flood"; WriteAcquire; WriteRelease]
       /\ retries (self w') = 1%nat
       /\ bot w' = [None]
       /\ no_transport Sample.url Sample.wire Sample.chat w'.
Proof.
  split; [reflexivity|]. split; [reflexivity|]. split; [reflexivity|].
  split; [discriminate|]. split; [reflexivity|]. split; [reflexivity|].
  apply (send_RetryAfter_sleep_refused Sample.url Sample.wire 0 Sample.chat
           Cases.w_endless (answered Cases.w_endless Sample.text_attempt)
           false "flood" 10000000000);
    [reflexivity|reflexivity|reflexivity|discriminate|reflexivity|].
  right. reflexivity.
Defined.

Lemma send_RetryAfter_reader_refused_witness :
  retries (self Cases.w_reader) = 0%nat
  /\ no_retry (self Cases.w_reader) = Some false
  /\ _send Sample.url Sample.wire Sample.chat Cases.w_reader
     = Some (Raised (Telegram (RetryAfter "flood" 5)),
             answered Cases.w_reader Sample.text_attempt)
  /\ lock_owner Cases.w_reader <> Some WRITER
  /\ is_reader (trace Cases.w_reader) = true
  /\ is_writer (trace Cases.w_reader) = false
  /\ exists w',
       send Sample.url Sample.wire 1 Sample.chat Cases.w_reader
       = Some (Raised RuntimeError, w')
       /\ trace w' = (ReadAcquire :: Sample.text_attempt) ++ [Warning "flood"]
       /\ retries (self w') = 1%nat
       /\ bot w' = [None].
Proof.
  split; [reflexivity|]. split; [reflexivity|]. split; [reflexivity|].
  split; [discriminate|]. split; [reflexivity|]. split; [reflexivity|].
  apply (send_RetryAfter_reader_refused Sample.url Sample.wire 0 Sample.chat
           Cases.w_reader (answered Cases.w_reader Sample.text_attempt)
           false "flood" 5);
    [reflexivity|reflexivity|reflexivity|discriminate|reflexivity|reflexivity].
Defined.


Lemma send_NetworkError_dropped_witness :
  retries (self Sample.w_timeout) = 0%nat
  /\ no_retry (self Sample.w_timeout) = Some false
  /\ is_NetworkError (TimedOut "late") = true
  /\ is_BadRequest (TimedOut "late") = false
  /\ _send Sample.url Sample.wire Sample.chat Sample.w_timeout
     = Some (Raised (Telegram (TimedOut "late")),
             answered Sample.w_timeout Sample.text_attempt)
  /\ exists w',
       send Sample.url Sample.wire 2 Sample.chat Sample.w_timeout
       = Some (Returned tt, w')
       /\ trace w' = Sample.text_attempt ++
            [Warning (msg_network "late"); Sleep 1]
       /\ attempts (trace w') = 1%nat
       /\ retries (self w') = 1%nat
       /\ bot w' = [None]
       /\ no_transport Sample.url Sample.wire Sample.chat w'.
Proof.
  do 5 (split; [reflexivity|]).
  apply (send_NetworkError_dropped Sample.url Sample.wire 0 Sample.chat
           Sample.w_timeout (answered Sample.w_timeout Sample.text_attempt)
           false (TimedOut "late"));
    reflexivity.
Defined.

Lemma send_escaping_errors_witness :
  send Sample.url Sample.wire 2 Sample.chat Cases.w_refused
  = Some (Raised (Telegram (BadRequest "bad")),
          answered Cases.w_refused Sample.text_attempt)
  /\ is_RetryAfter (BadRequest "bad") = false
  /\ (is_NetworkError (BadRequest "bad") = true
      -> is_BadRequest (BadRequest "bad") = true)
  /\ (is_BadRequest (BadRequest "bad") = true
      -> no_retry (self Cases.w_refused) = Some false)
  /\ bot Cases.w_refused
     = Some (BadRequest "bad")
       :: bot (answered Cases.w_refused Sample.text_attempt)
  /\ retries (self Cases.w_refused) = 0%nat
  /\ retries (self (answered Cases.w_refused Sample.text_attempt)) = 0%nat.
Proof.
  split; [reflexivity|].
  apply (send_escaping_errors Sample.url Sample.wire 0 Sample.chat
           Cases.w_refused (answered Cases.w_refused Sample.text_attempt)
           (BadRequest "bad")).
  reflexivity.
Defined.

Lemma send_single_medium_missing_witness :
  retries (self Cases.w_photo_list) = 0%nat
  /\ no_retry (self Cases.w_photo_list) = Some false
  /\ cls (self Cases.w_photo_list) = PhotoMsg
  /\ (forall m, media (self Cases.w_photo_list) <> OneMedium m)
  /\ send Sample.url Sample.wire 1 Sample.chat Cases.w_photo_list
     = Some (Raised AttributeError,
             logged Cases.w_photo_list [ReadAcquire; ReadRelease]).
Proof.
  split; [reflexivity|]. split; [reflexivity|]. split; [reflexivity|].
  split; [intros m Hm; discriminate Hm|].
  apply (send_single_medium_missing Sample.url Sample.wire 0 Sample.chat
           Cases.w_photo_list false);
    [reflexivity|reflexivity|left; reflexivity|].
  intros m Hm; discriminate Hm.
Defined.

Lemma send_media_group_unusable_witness :
  retries (self Cases.w_group_empty) = 0%nat
  /\ no_retry (self Cases.w_group_empty) = Some false
  /\ cls (self Cases.w_group_empty) = MediaGroupMsg
  /\ media (self Cases.w_group_empty) = Media []
  /\ send Sample.url Sample.wire 1 Sample.chat Cases.w_group_empty
     = Some (Raised IndexError,
             logged Cases.w_group_empty [ReadAcquire; ReadRelease]).
Proof.
  do 4 (split; [reflexivity|]).
  apply (send_media_group_unusable Sample.url Sample.wire 0 Sample.chat
           Cases.w_group_empty false IndexError);
    [reflexivity|reflexivity|reflexivity|].
  right. split; reflexivity.
Defined.
